(** * Proton API: authentication and role-based access control

    A shallow embedding of [src/main.py]: the credential hasher, the token
    codec, the session resolver [get_current_user], the [signup] and [login]
    handlers and the role-gated routes, followed by the properties the
    specification states about them.

    Python dictionaries are finite maps from field names to dynamically
    typed values; the handlers run in a small state-and-exception monad
    over the document store.  What the program takes from outside (the
    clock, the hasher's entropy, the driver's fresh ObjectId) is an explicit
    input.  The third-party libraries (PyJWT, passlib, the [str] builtin)
    are interfaces: their primitives are class fields, what the program
    does with them is defined here. *)

From stdpp Require Import base option list strings gmap pretty.
From Stdlib Require Import ZArith String Ascii Lia.

Open Scope string_scope.
Open Scope Z_scope.

(** ** Python values *)

(** The dynamically typed values that occur in request bodies, token
    payloads and stored documents.  A float is kept by its IEEE-754 bit
    pattern, a datetime by its instant in microseconds since the epoch
    together with whether it carries a time zone; neither is inspected by
    the program. *)
Inductive value : Type :=
| VNone
| VBool (b : bool)
| VInt (n : Z)
| VFloat (bits : Z)
| VStr (s : string)
| VList (l : list string)
| VObjectId (hex : string)
| VDatetime (us : Z) (aware : bool).

#[global] Instance value_eq_dec : EqDecision value.
Proof. solve_decision. Defined.

#[global] Instance value_inhabited : Inhabited value := populate VNone.

(** A document, a request body turned into a dict, and a token payload are
    all Python dicts with string keys. *)
Abbreviation dict := (gmap string value).

(** Python truthiness, as used by [not x]. *)
Definition truthy (v : value) : bool :=
  match v with
  | VNone => false
  | VBool b => b
  | VInt n => negb (n =? 0)
  | VFloat bits => negb ((bits =? 0) || (bits =? 2 ^ 63))
  | VStr s => negb (String.eqb s EmptyString)
  | VList l => match l with [] => false | _ => true end
  | VObjectId _ => true
  | VDatetime _ _ => true
  end.

(** [d.get(k)]: the value, or [None]. *)
Definition dict_get (d : dict) (k : string) : value := default VNone (d !! k).

(** [d.get(k, dflt)]. *)
Definition dict_get_default (d : dict) (k : string) (dflt : value) : value :=
  default dflt (d !! k).

(** ** Strings *)

(** A [str] is held as its encoding in UTF-8, one [ascii] per byte; the
    byte of an ASCII character, the space among them, occurs in the
    encoding of no other character. *)

(** Lower-casing of ASCII text: the letters A..Z are mapped to a..z, every
    other character is kept. *)
Definition ascii_lower (c : ascii) : ascii :=
  let n := N_of_ascii c in
  if ((65 <=? n) && (n <=? 90))%N then ascii_of_N (n + 32) else c.

Fixpoint lower_ascii_text (s : string) : string :=
  match s with
  | EmptyString => EmptyString
  | String c r => String (ascii_lower c) (lower_ascii_text r)
  end.

(** [s.isascii()]: every character is below 128. *)
Fixpoint is_ascii (s : string) : bool :=
  match s with
  | EmptyString => true
  | String c r => (N_of_ascii c <? 128)%N && is_ascii r
  end.

(** [" " in s]. *)
Fixpoint has_space (s : string) : bool :=
  match s with
  | EmptyString => false
  | String c r => Ascii.eqb c " " || has_space r
  end.

(** [s.partition(sep)] for a one-character separator: the text before the
    first occurrence, the separator, the text after it; or [s] followed by two
    empty strings when the separator does not occur. *)
Fixpoint partition (sep : ascii) (s : string) : string * string * string :=
  match s with
  | EmptyString => (EmptyString, EmptyString, EmptyString)
  | String c r =>
      if Ascii.eqb c sep then (EmptyString, String sep EmptyString, r)
      else let '(h, m, t) := partition sep r in (String c h, m, t)
  end.

(** [s.startswith(p)]. *)
Fixpoint startswith (p s : string) : bool :=
  match p, s with
  | EmptyString, _ => true
  | String a p', String b s' => Ascii.eqb a b && startswith p' s'
  | String _ _, EmptyString => false
  end.

(** ** The [str] type and builtin *)

(** [lower] is [str.lower], Python's lower-casing of a string by the Unicode
    case mappings, over whatever characters a string holds.  It is taken
    from the runtime, with the three facts about it that are used: on ASCII
    text it maps A..Z to a..z and keeps every other character; lower-casing
    twice is lower-casing once; and where a string has a space, so has its
    lower-casing.  [str(v)] is spelled out for the values whose rendering is
    immediate; the renderings of floats, lists and datetimes are left to the
    runtime as well. *)
Class PyBuiltins := {
  str_other : value → string;
  lower : string → string;
  lower_ascii : ∀ s, is_ascii s = true → lower s = lower_ascii_text s;
  lower_idempotent : ∀ s, lower (lower s) = lower s;
  lower_space : ∀ s, has_space s = true → has_space (lower s) = true
}.

Definition py_str `{PyBuiltins} (v : value) : string :=
  match v with
  | VNone => "None"
  | VBool true => "True"
  | VBool false => "False"
  | VInt n => pretty n
  | VStr s => s
  | VObjectId hex => hex
  | _ => str_other v
  end.

(** ** Outcomes of a handler *)

(** Exceptions that are not [HTTPException]: they are not handled anywhere
    in the program and surface as a server error. *)
Inductive exn : Type :=
| TypeError
| ValueError
| UnknownHashError.

(** A handler returns, raises [HTTPException(status_code, detail)], or lets
    another exception escape. *)
Inductive outcome (A : Type) : Type :=
| Ok (a : A)
| HTTPException (status_code : Z) (detail : string)
| Uncaught (e : exn).
Arguments Ok {A} a.
Arguments HTTPException {A} status_code detail.
Arguments Uncaught {A} e.

Definition is_ok {A} (o : outcome A) : bool :=
  match o with Ok _ => true | _ => false end.

(** The status code of a raised [HTTPException]. *)
Definition status_of {A} (o : outcome A) : option Z :=
  match o with HTTPException c _ => Some c | _ => None end.

#[global] Instance outcome_ret : MRet outcome := λ A a, Ok a.
#[global] Instance outcome_bind : MBind outcome := λ A B f o,
  match o with
  | Ok a => f a
  | HTTPException c d => HTTPException c d
  | Uncaught e => Uncaught e
  end.

(** ** passlib: [CryptContext(schemes=["bcrypt"], deprecated="auto")] *)

(** The identifiers by which passlib's bcrypt handler recognises a digest. *)
Definition bcrypt_idents : list string := ["$2$"; "$2a$"; "$2x$"; "$2y$"; "$2b$"].

Definition bcrypt_identify (hashed : string) : bool :=
  existsb (λ ident, startswith ident hashed) bcrypt_idents.

(** The bcrypt handler itself.  [bcrypt_hash salt secret] is the digest
    string for a secret under the salt the handler drew, or [None] when the
    handler refuses the secret; [bcrypt_verify secret digest] is the verdict
    on a digest that carries a bcrypt identifier, or [None] when that digest
    cannot be parsed or the secret is refused.  A digest the handler
    produced is recognised and verifies against its own secret. *)
Class Passlib := {
  bcrypt_hash : string → string → option string;
  bcrypt_verify : string → string → option bool;
  bcrypt_hash_identify : ∀ salt secret h,
    bcrypt_hash salt secret = Some h → bcrypt_identify h = true;
  bcrypt_verify_hash : ∀ salt secret h,
    bcrypt_hash salt secret = Some h → bcrypt_verify secret h = Some true
}.

Section credential_hasher.
Context `{Passlib}.

(** [pwd_context.hash(secret)]. *)
Definition pwd_context_hash (salt secret : string) : outcome string :=
  match bcrypt_hash salt secret with
  | Some h => Ok h
  | None => Uncaught ValueError
  end.

(** [pwd_context.verify(secret, hash)]: [None] is answered with [False];
    a string no configured scheme identifies raises [UnknownHashError];
    anything that is not a string raises [TypeError]. *)
Definition pwd_context_verify (secret : string) (hashed : value) : outcome bool :=
  match hashed with
  | VNone => Ok false
  | VStr h =>
      if bcrypt_identify h then
        match bcrypt_verify secret h with
        | Some b => Ok b
        | None => Uncaught ValueError
        end
      else Uncaught UnknownHashError
  | _ => Uncaught TypeError
  end.

(** [hash_password] (main.py, line 30). *)
Definition hash_password (salt pw : string) : outcome string :=
  pwd_context_hash salt pw.

(** [verify_password] (main.py, line 34). *)
Definition verify_password (pw : string) (hashed : value) : outcome bool :=
  pwd_context_verify pw hashed.
End credential_hasher.

(** ** PyJWT *)

(** The exceptions [jwt.decode] raises on a token; every one of them is a
    subclass of [jwt.InvalidTokenError]. *)
Inductive jwt_error : Type :=
| ExpiredSignatureError
| DecodeError
| InvalidSignatureError
| InvalidAlgorithmError
| ImmatureSignatureError
| InvalidIssuedAtError
| InvalidAudienceError
| InvalidIssuerError
| MissingRequiredClaimError.

#[global] Instance jwt_error_eq_dec : EqDecision jwt_error.
Proof. solve_decision. Defined.

(** What [json.dumps] accepts among the values of a payload. *)
Definition json_serializable (v : value) : bool :=
  match v with
  | VObjectId _ | VDatetime _ _ => false
  | _ => true
  end.

(** [timegm(dt.utctimetuple())]: whole seconds since the epoch. *)
Definition timegm (v : value) : value :=
  match v with
  | VDatetime us _ => VInt (us / 1000000)
  | _ => v
  end.

(** The time claims [jwt.encode] converts from datetimes to integers. *)
Definition jwt_time_claims : list string := ["exp"; "iat"; "nbf"].

Definition jwt_prepare (payload : dict) : dict :=
  foldr (λ k p, alter timegm k p) payload jwt_time_claims.

(** The registered claims, other than [exp], that [jwt.decode] validates when
    a payload carries them.  This program never sets them. *)
Definition jwt_other_registered : list string := ["iat"; "nbf"; "aud"; "iss"].

Definition session_claims (c : dict) : Prop :=
  Forall (λ k, c !! k = None) jwt_other_registered.

(** The expiry rule of [jwt.decode]: a token is expired from the second its
    [exp] names onwards ([now] in microseconds). *)
Definition exp_check (e now : Z) : option jwt_error :=
  if e * 1000000 <=? now then Some ExpiredSignatureError else None.

(** The primitives of the library: the compact JWS serialization (base64url
    over JSON), the HMAC-SHA256 signature and the validation of registered
    claims.  [jws_signing_input c] is the header and payload segments for
    payload [c] under the header of HS256; [jws_compact] appends the
    signature segment; [jws_parse] splits a token into signing input,
    header algorithm, payload and signature, or fails on a malformed one.
    Serialization followed by parsing gives back what was serialized, a
    token is never the empty string, and on a payload whose only registered
    claim is an integer [exp] validation is the expiry rule. *)
Class PyJWT := {
  jws_signing_input : dict → string;
  jws_compact : string → string → string;
  jws_parse : string → option (string * string * dict * string);
  hmac_sha256 : string → string → string;
  jwt_validate_claims : dict → Z → option jwt_error;
  jws_parse_compact : ∀ c sig,
    map_Forall (λ _ v, json_serializable v = true) c →
    jws_parse (jws_compact (jws_signing_input c) sig)
    = Some (jws_signing_input c, "HS256", c, sig);
  jws_compact_nonempty : ∀ si sig, jws_compact si sig ≠ EmptyString;
  jwt_validate_exp : ∀ c now e,
    session_claims c → c !! "exp" = Some (VInt e) →
    jwt_validate_claims c now = exp_check e now
}.

(** The process environment, read by [os.getenv]. *)
Class OsEnviron := {
  getenv : string → option string
}.

Section token_codec.
Context `{PyJWT} `{OsEnviron}.

(** main.py, lines 24 and 25. *)
Definition JWT_SECRET : string :=
  default "dev_secret_change_me" (getenv "JWT_SECRET").
Definition JWT_ALG : string := "HS256".

(** [jwt.encode(payload, key, algorithm="HS256")]: datetimes in the time
    claims become integers, a payload [json.dumps] refuses raises
    [TypeError]. *)
Definition jwt_encode (payload : dict) (key : string) : outcome string :=
  let payload := jwt_prepare payload in
  if bool_decide (map_Forall (λ _ v, json_serializable v = true) payload) then
    let si := jws_signing_input payload in
    Ok (jws_compact si (hmac_sha256 key si))
  else Uncaught TypeError.

(** [jwt.decode(token, key, algorithms=[...])] at time [now]: structure,
    then algorithm, then signature, then the registered claims.  The result
    is the payload or one of the [InvalidTokenError]s above.  What PyJWT
    raises outside that hierarchy is not part of this model: [TypeError]
    on a signed token whose [exp] is null, [InvalidKeyError] on a secret
    that looks like a PEM key; [decode_token] catches neither. *)
Definition jwt_decode (token key : string) (algorithms : list string) (now : Z)
  : jwt_error + dict :=
  match jws_parse token with
  | None => inl DecodeError
  | Some (si, alg, payload, sig) =>
      if negb (bool_decide (alg ∈ algorithms)) then inl InvalidAlgorithmError
      else if negb (String.eqb sig (hmac_sha256 key si)) then inl InvalidSignatureError
      else match jwt_validate_claims payload now with
           | Some e => inl e
           | None => inr payload
           end
  end.

(** [create_token] (main.py, line 38); [now] is the reading of
    [datetime.now(timezone.utc)]. *)
Definition create_token (data : dict) (expires_minutes : Z) (now : Z) : outcome string :=
  let to_encode := data in
  let expire := VDatetime (now + expires_minutes * 60000000) true in
  let to_encode := <["exp" := expire]> to_encode in
  jwt_encode to_encode JWT_SECRET.

(** [decode_token] (main.py, line 45): the first handler catches
    [ExpiredSignatureError], the second every other [InvalidTokenError]. *)
Definition decode_token (token : string) (now : Z) : outcome dict :=
  match jwt_decode token JWT_SECRET [JWT_ALG] now with
  | inr payload => Ok payload
  | inl ExpiredSignatureError => HTTPException 401 "Token expired"
  | inl _ => HTTPException 401 "Invalid token"
  end.
End token_codec.

(** ** The document store *)

(** Modelled from the spec: module [database] ([db], [create_document],
    [get_documents]) is not among the sources.  The specification gives the
    store as [insert(collection, doc) -> id], [find(collection, filter) ->
    sequence of doc] and [count(collection, filter) -> int], keyed by
    collection name; [main.py] reaches it through [db[name].find_one],
    [db[name].insert_one] and [db[name].count_documents].  A collection is
    the list of its documents in insertion order.  Every read hands out a
    document decoded afresh, so what a caller does to the dict it received
    does not reach the store.  A filter is a dict of required field values;
    a required [None] is also met by a document that lacks the field. *)
Abbreviation store := (gmap string (list dict)).

Definition collection (db : store) (name : string) : list dict :=
  default [] (db !! name).

Definition field_matches (field : option value) (required : value) : bool :=
  match required with
  | VNone => match field with None | Some VNone => true | Some _ => false end
  | _ => bool_decide (field = Some required)
  end.

Definition doc_matches (flt d : dict) : bool :=
  forallb (λ kv : string * value, field_matches (d !! kv.1) kv.2) (map_to_list flt).

(** What the store keeps of a value: datetimes are held as UTC instants with
    millisecond resolution and read back without a time zone. *)
Definition bson_value (v : value) : value :=
  match v with
  | VDatetime us _ => VDatetime (us / 1000 * 1000) false
  | _ => v
  end.

(** The state-and-exception monad of the handlers. *)
Definition M (A : Type) : Type := store → outcome A * store.

#[global] Instance M_ret : MRet M := λ A a db, (Ok a, db).
#[global] Instance M_bind : MBind M := λ A B f m db,
  match m db with
  | (Ok a, db') => f a db'
  | (HTTPException c d, db') => (HTTPException c d, db')
  | (Uncaught e, db') => (Uncaught e, db')
  end.

(** [raise HTTPException(status_code=c, detail=d)]. *)
Definition raise {A} (c : Z) (d : string) : M A := λ db, (HTTPException c d, db).

(** A computation that does not touch the store. *)
Definition lift {A} (o : outcome A) : M A := λ db, (o, db).

(** [db[name].find_one(flt)]. *)
Definition find_one (name : string) (flt : dict) : M (option dict) :=
  λ db, (Ok (List.find (doc_matches flt) (collection db name)), db).

(** [db[name].find(flt)] as a list. *)
Definition find (name : string) (flt : dict) : M (list dict) :=
  λ db, (Ok (List.filter (doc_matches flt) (collection db name)), db).

(** [db[name].insert_one(document)]: a document without [_id] receives the
    ObjectId the driver generated, in the caller's dict as well; the result
    is the inserted id and the caller's dict as the call leaves it. *)
Definition insert_one (name : string) (document : dict) (oid : string) : M (value * dict) :=
  λ db,
    let document :=
      match document !! "_id" with
      | Some _ => document
      | None => <["_id" := VObjectId oid]> document
      end in
    (Ok (dict_get document "_id", document),
     <[name := (collection db name ++ [bson_value <$> document])%list]> db).

(** [db[name].count_documents({})]. *)
Definition count_documents (name : string) : M Z :=
  λ db, (Ok (Z.of_nat (List.length (collection db name))), db).

(** [create_document(name, doc)]: insert, and return the new id. *)
Definition create_document (name : string) (doc : dict) (oid : string) : M value :=
  r ← insert_one name doc oid; mret r.1.

(** [get_documents(name, flt)]; without a filter, every document. *)
Definition get_documents (name : string) (flt : dict) : M (list dict) :=
  find name flt.

(** What a request takes from outside the program: the successive readings
    of [datetime.now(timezone.utc)] in microseconds since the epoch, the
    salt the hasher draws, and the ObjectId the driver generates. *)
Record Env := {
  env_clock : nat → Z;
  env_salt : string;
  env_oid : string
}.

(** ** Request and response bodies (main.py, lines 55 to 113) *)

Definition opt_str (o : option string) : value := from_option VStr VNone o.
Definition opt_float (o : option Z) : value := from_option VFloat VNone o.
Definition opt_int (o : option Z) : value := from_option VInt VNone o.

Module SignupRequest.
Record t := { name : string; email : string; password : string; role : string }.
End SignupRequest.

Module LoginRequest.
Record t := { email : string; password : string }.
End LoginRequest.

Module AuthResponse.
Record t := { access_token : string; token_type : string; user : dict }.
(** The handlers return [access_token] and [user]; the response model
    supplies the default of [token_type]. *)
Definition make (token : string) (u : dict) : t :=
  {| access_token := token; token_type := "bearer"; user := u |}.
End AuthResponse.

Module ProductPayload.
Record t := { title : string; specs : option string; category : option string;
              unit_price : option Z; images : list string }.
Definition dict (p : t) : gmap string value :=
  {[ "title" := VStr (title p); "specs" := opt_str (specs p);
     "category" := opt_str (category p); "unit_price" := opt_float (unit_price p);
     "images" := VList (images p) ]}.
End ProductPayload.

Module RequirementPayload.
Record t := { title : string; description : option string;
              budget : option Z; deadline : option string }.
Definition dict (p : t) : gmap string value :=
  {[ "title" := VStr (title p); "description" := opt_str (description p);
     "budget" := opt_float (budget p); "deadline" := opt_str (deadline p) ]}.
End RequirementPayload.

Module ProjectPayload.
Record t := { title : string; description : option string; target_amount : Z;
              expected_roi_pct : Z; duration_months : Z; milestones : list string }.
Definition dict (p : t) : gmap string value :=
  {[ "title" := VStr (title p); "description" := opt_str (description p);
     "target_amount" := VFloat (target_amount p);
     "expected_roi_pct" := VFloat (expected_roi_pct p);
     "duration_months" := VInt (duration_months p);
     "milestones" := VList (milestones p) ]}.
End ProjectPayload.

Module InvestPayload.
Record t := { project_id : string; amount : Z }.
End InvestPayload.

Module JobPayload.
Record t := { title : string; company_id : option string; location : option string;
              skills : list string; min_exp_years : option Z;
              description : option string }.
Definition dict (p : t) : gmap string value :=
  {[ "title" := VStr (title p); "company_id" := opt_str (company_id p);
     "location" := opt_str (location p); "skills" := VList (skills p);
     "min_exp_years" := opt_int (min_exp_years p);
     "description" := opt_str (description p) ]}.
End JobPayload.

Module ApplyPayload.
Record t := { job_id : string; resume_url : option string }.
End ApplyPayload.

(** ** The handlers of main.py *)

Section handlers.
Context `{PyBuiltins} `{Passlib} `{PyJWT} `{OsEnviron}.

(** [d["_id"] = str(d["_id"]) if "_id" in d else None]. *)
Definition stringify_id (d : dict) : dict :=
  <["_id" := match d !! "_id" with
             | Some v => VStr (py_str v)
             | None => VNone
             end]> d.

(** The two statements under the comment [# sanitize] (lines 129 and 130,
    and again lines 220 and 221). *)
Definition sanitize (user : dict) : dict :=
  delete "password_hash" (stringify_id user).

(** The dict a truthy [find_one] result holds; [None] and the empty dict
    are falsy. *)
Definition if_truthy (o : option dict) : option dict :=
  match o with
  | Some d => if bool_decide (d = ∅) then None else Some d
  | None => None
  end.

(** [get_current_user] (main.py, line 118). *)
Definition get_current_user (authorization : option string) (now : Z) : M dict :=
  match authorization with
  | None | Some EmptyString => raise 401 "Missing Authorization header"
  | Some authorization =>
      let '(scheme, _, token) := partition " " authorization in
      if negb (String.eqb (lower scheme) "bearer") || String.eqb token EmptyString
      then raise 401 "Invalid auth header"
      else
        payload ← lift (decode_token token now);
        user ← find_one "user" {[ "email" := dict_get payload "sub" ]};
        match if_truthy user with
        | None => raise 401 "User not found"
        | Some user => mret (sanitize user)
        end
  end.

(** [signup] (main.py, line 186). *)
Definition signup (payload : SignupRequest.t) (env : Env) : M AuthResponse.t :=
  let email := lower (SignupRequest.email payload) in
  existing ← find_one "user" {[ "email" := VStr email ]};
  match if_truthy existing with
  | Some _ => raise 400 "Email already registered"
  | None =>
      password_hash ← lift (hash_password (env_salt env) (SignupRequest.password payload));
      let user_doc : dict :=
        {[ "name" := VStr (SignupRequest.name payload);
           "email" := VStr email;
           "phone" := VNone;
           "role" := VStr (SignupRequest.role payload);
           "password_hash" := VStr password_hash;
           "kyc_status" := VStr "pending";
           "company_id" := VNone;
           "is_active" := VBool true;
           "created_at" := VDatetime (env_clock env 0) true;
           "updated_at" := VDatetime (env_clock env 1) true ]} in
      result ← insert_one "user" user_doc (env_oid env);
      let '(inserted_id, user_doc) := result in
      let sub := email in
      token ← lift (create_token {[ "sub" := VStr sub;
                                    "role" := VStr (SignupRequest.role payload) ]}
                                 60 (env_clock env 2));
      let user_doc := <["_id" := VStr (py_str inserted_id)]> user_doc in
      let user_doc := delete "password_hash" user_doc in
      mret (AuthResponse.make token user_doc)
  end.

(** [login] (main.py, line 212). *)
Definition login (payload : LoginRequest.t) (now : Z) : M AuthResponse.t :=
  let email := lower (LoginRequest.email payload) in
  user ← find_one "user" {[ "email" := VStr email ]};
  match if_truthy user with
  | None => raise 401 "Invalid credentials"
  | Some user =>
      verified ← lift (verify_password (LoginRequest.password payload)
                         (dict_get_default user "password_hash" (VStr EmptyString)));
      if negb verified then raise 401 "Invalid credentials"
      else if negb (truthy (dict_get_default user "is_active" (VBool true)))
      then raise 403 "User deactivated"
      else
        token ← lift (create_token {[ "sub" := VStr email;
                                      "role" := dict_get user "role" ]} 60 now);
        mret (AuthResponse.make token (sanitize user))
  end.

(** [me] (main.py, line 226). *)
Definition me (user : dict) : M dict := mret user.

(** [user.get("role") != r] and [user.get("role") not in (...)]. *)
Definition role_is (user : dict) (r : string) : bool :=
  bool_decide (dict_get user "role" = VStr r).
Definition role_in (user : dict) (rs : list string) : bool :=
  bool_decide (dict_get user "role" ∈ VStr <$> rs).

(** [create_product] (main.py, line 232). *)
Definition create_product (payload : ProductPayload.t) (user : dict) (oid : string) : M dict :=
  if negb (role_is user "vendor") then raise 403 "Only vendors can create products"
  else
    let doc := ProductPayload.dict payload in
    let doc := <["vendor_id" := dict_get user "_id"]> doc in
    inserted_id ← create_document "productlisting" doc oid;
    mret {[ "id" := inserted_id; "message" := VStr "Product listed" ]}.

(** [my_products] (main.py, line 242). *)
Definition my_products (user : dict) : M (list dict) :=
  if negb (role_is user "vendor") then raise 403 "Only vendors can view this"
  else
    docs ← get_documents "productlisting" {[ "vendor_id" := dict_get user "_id" ]};
    mret (stringify_id <$> docs).

(** [create_requirement] (main.py, line 253). *)
Definition create_requirement (payload : RequirementPayload.t) (user : dict) (oid : string)
  : M dict :=
  if negb (role_is user "buyer") then raise 403 "Only buyers can post requirements"
  else
    let doc := RequirementPayload.dict payload in
    let doc := <["status" := VStr "submitted"]> (<["buyer_id" := dict_get user "_id"]> doc) in
    inserted_id ← create_document "buyerrequirement" doc oid;
    mret {[ "id" := inserted_id; "message" := VStr "Requirement posted" ]}.

(** [my_requirements] (main.py, line 263). *)
Definition my_requirements (user : dict) : M (list dict) :=
  if negb (role_is user "buyer") then raise 403 "Only buyers can view this"
  else
    docs ← get_documents "buyerrequirement" {[ "buyer_id" := dict_get user "_id" ]};
    mret (stringify_id <$> docs).

(** [create_project] (main.py, line 274). *)
Definition create_project (payload : ProjectPayload.t) (user : dict) (oid : string) : M dict :=
  if negb (role_in user ["vendor"; "admin"])
  then raise 403 "Only vendors or admins can create projects"
  else
    let doc := ProjectPayload.dict payload in
    let doc := <["owner_vendor_id" := dict_get user "_id"]> doc in
    inserted_id ← create_document "investmentproject" doc oid;
    mret {[ "id" := inserted_id; "message" := VStr "Project created" ]}.

(** [list_projects] (main.py, line 284). *)
Definition list_projects : M (list dict) :=
  docs ← get_documents "investmentproject" ∅;
  mret (stringify_id <$> docs).

(** [invest] (main.py, line 292). *)
Definition invest (payload : InvestPayload.t) (user : dict) (oid : string) : M dict :=
  if negb (role_is user "investor") then raise 403 "Only investors can invest"
  else
    let doc : dict :=
      {[ "investor_id" := dict_get user "_id";
         "project_id" := VStr (InvestPayload.project_id payload);
         "amount" := VFloat (InvestPayload.amount payload);
         "status" := VStr "initiated" ]} in
    inserted_id ← create_document "transaction" doc oid;
    mret {[ "id" := inserted_id; "message" := VStr "Investment initiated" ]}.

(** [create_job] (main.py, line 307). *)
Definition create_job (payload : JobPayload.t) (user : dict) (oid : string) : M dict :=
  if negb (role_in user ["vendor"; "admin"]) then raise 403 "Only vendors/admins can post jobs"
  else
    let doc := JobPayload.dict payload in
    inserted_id ← create_document "joblisting" doc oid;
    mret {[ "id" := inserted_id; "message" := VStr "Job posted" ]}.

(** [list_jobs] (main.py, line 316). *)
Definition list_jobs : M (list dict) :=
  docs ← get_documents "joblisting" ∅;
  mret (stringify_id <$> docs).

(** [apply_job] (main.py, line 324). *)
Definition apply_job (payload : ApplyPayload.t) (user : dict) (oid : string) : M dict :=
  if negb (role_in user ["employee"; "admin"]) then raise 403 "Only employees/admins can apply"
  else
    let doc : dict :=
      {[ "job_id" := VStr (ApplyPayload.job_id payload);
         "user_id" := dict_get user "_id";
         "status" := VStr "applied";
         "resume_url" := opt_str (ApplyPayload.resume_url payload) ]} in
    inserted_id ← create_document "jobapplication" doc oid;
    mret {[ "id" := inserted_id; "message" := VStr "Application submitted" ]}.

(** [admin_overview] (main.py, line 334); the local [count] answers 0 when
    the store raises, which [count_documents] here never does. *)
Definition admin_overview (user : dict) : M dict :=
  if negb (role_is user "admin") then raise 403 "Admin only"
  else
    let count (col : string) : M value := n ← count_documents col; mret (VInt n) in
    users ← count "user";
    products ← count "productlisting";
    requirements ← count "buyerrequirement";
    projects ← count "investmentproject";
    transactions ← count "transaction";
    jobs ← count "joblisting";
    applications ← count "jobapplication";
    mret {[ "users" := users; "products" := products; "requirements" := requirements;
            "projects" := projects; "transactions" := transactions; "jobs" := jobs;
            "applications" := applications ]}.

(** *** Routing *)

(** The routes of the application, each with its request body. *)
Inductive request : Type :=
| POST_auth_signup (payload : SignupRequest.t)
| POST_auth_login (payload : LoginRequest.t)
| GET_auth_me
| POST_vendor_products (payload : ProductPayload.t)
| GET_vendor_products
| POST_buyer_requirements (payload : RequirementPayload.t)
| GET_buyer_requirements
| POST_investor_projects (payload : ProjectPayload.t)
| GET_investor_projects
| POST_investor_invest (payload : InvestPayload.t)
| POST_job_listings (payload : JobPayload.t)
| GET_job_listings
| POST_job_apply (payload : ApplyPayload.t)
| GET_admin_overview.

Inductive response : Type :=
| JsonObject (d : dict)
| JsonArray (l : list dict)
| JsonAuth (a : AuthResponse.t).

(** The application: a route that declares [Depends(get_current_user)]
    resolves the caller from the [Authorization] header before its
    handler runs; the other routes never look at the header. *)
Definition app (req : request) (authorization : option string) (env : Env) : M response :=
  let current_user := get_current_user authorization (env_clock env 0) in
  match req with
  | POST_auth_signup p => r ← signup p env; mret (JsonAuth r)
  | POST_auth_login p => r ← login p (env_clock env 0); mret (JsonAuth r)
  | GET_auth_me => user ← current_user; r ← me user; mret (JsonObject r)
  | POST_vendor_products p =>
      user ← current_user; r ← create_product p user (env_oid env); mret (JsonObject r)
  | GET_vendor_products => user ← current_user; r ← my_products user; mret (JsonArray r)
  | POST_buyer_requirements p =>
      user ← current_user; r ← create_requirement p user (env_oid env); mret (JsonObject r)
  | GET_buyer_requirements => user ← current_user; r ← my_requirements user; mret (JsonArray r)
  | POST_investor_projects p =>
      user ← current_user; r ← create_project p user (env_oid env); mret (JsonObject r)
  | GET_investor_projects => r ← list_projects; mret (JsonArray r)
  | POST_investor_invest p =>
      user ← current_user; r ← invest p user (env_oid env); mret (JsonObject r)
  | POST_job_listings p =>
      user ← current_user; r ← create_job p user (env_oid env); mret (JsonObject r)
  | GET_job_listings => r ← list_jobs; mret (JsonArray r)
  | POST_job_apply p =>
      user ← current_user; r ← apply_job p user (env_oid env); mret (JsonObject r)
  | GET_admin_overview => user ← current_user; r ← admin_overview user; mret (JsonObject r)
  end.
End handlers.

(** ** The access policy as the specification tabulates it *)

(** The endpoint families of the table of section 4.4. *)
Inductive endpoint : Type :=
| CreateProductListing | ListOwnProducts
| CreateBuyerRequirement | ListOwnRequirements
| CreateInvestmentProject | ListInvestmentProjects | InvestInProject
| CreateJobListing | ListJobListings | ApplyToJob
| AdminOverview.

(** The allowed roles of an endpoint family; [None] is "any (public)". *)
Definition allowed_roles (e : endpoint) : option (list string) :=
  match e with
  | CreateProductListing | ListOwnProducts => Some ["vendor"]
  | CreateBuyerRequirement | ListOwnRequirements => Some ["buyer"]
  | CreateInvestmentProject => Some ["vendor"; "admin"]
  | ListInvestmentProjects => None
  | InvestInProject => Some ["investor"]
  | CreateJobListing => Some ["vendor"; "admin"]
  | ListJobListings => None
  | ApplyToJob => Some ["employee"; "admin"]
  | AdminOverview => Some ["admin"]
  end.

(** The five roles of the enumeration. *)
Definition roles : list string := ["vendor"; "buyer"; "investor"; "employee"; "admin"].

(** The endpoint family a route belongs to; the authentication routes are
    not in the table. *)
Definition endpoint_of (req : request) : option endpoint :=
  match req with
  | POST_auth_signup _ | POST_auth_login _ | GET_auth_me => None
  | POST_vendor_products _ => Some CreateProductListing
  | GET_vendor_products => Some ListOwnProducts
  | POST_buyer_requirements _ => Some CreateBuyerRequirement
  | GET_buyer_requirements => Some ListOwnRequirements
  | POST_investor_projects _ => Some CreateInvestmentProject
  | GET_investor_projects => Some ListInvestmentProjects
  | POST_investor_invest _ => Some InvestInProject
  | POST_job_listings _ => Some CreateJobListing
  | GET_job_listings => Some ListJobListings
  | POST_job_apply _ => Some ApplyToJob
  | GET_admin_overview => Some AdminOverview
  end.

(** The first user of the store whose [email] field is the string [e]. *)
Definition user_by_email (db : store) (e : string) : option dict :=
  List.find (λ d, bool_decide (d !! "email" = Some (VStr e))) (collection db "user").

(** ** Notions used in the statements *)

(** Every email held as a string in the user collection is in lower case. *)
Definition emails_lowercase `{PyBuiltins} (db : store) : Prop :=
  ∀ d e, d ∈ collection db "user" → d !! "email" = Some (VStr e) → lower e = e.

(** Every user document carries an [_id]. *)
Definition users_have_ids (db : store) : Prop :=
  ∀ d, d ∈ collection db "user" → is_Some (d !! "_id").

Section derived.
Context `{PyBuiltins} `{Passlib} `{PyJWT} `{OsEnviron}.

(** The second of the epoch at which a token issued at [now] expires. *)
Definition expiry (expires_minutes now : Z) : Z :=
  (now + expires_minutes * 60000000) / 1000000.

(** The payload [create_token] signs. *)
Definition issued_claims (data : dict) (expires_minutes now : Z) : dict :=
  <["exp" := VInt (expiry expires_minutes now)]> data.

(** The token [create_token] returns. *)
Definition issued_token (data : dict) (expires_minutes now : Z) : string :=
  let si := jws_signing_input (issued_claims data expires_minutes now) in
  jws_compact si (hmac_sha256 JWT_SECRET si).

(** The claims [login] puts in the token. *)
Definition login_claims (email : string) (user : dict) : dict :=
  {[ "sub" := VStr email; "role" := dict_get user "role" ]}.

(** The claims [signup] puts in the token. *)
Definition signup_claims (email role : string) : dict :=
  {[ "sub" := VStr email; "role" := VStr role ]}.

(** The record [signup] hands to the store, once the driver has added the
    id, as the store keeps it. *)
Definition stored_user (payload : SignupRequest.t) (env : Env) (h : string) : dict :=
  {[ "_id" := VObjectId (env_oid env);
     "name" := VStr (SignupRequest.name payload);
     "email" := VStr (lower (SignupRequest.email payload));
     "phone" := VNone;
     "role" := VStr (SignupRequest.role payload);
     "password_hash" := VStr h;
     "kyc_status" := VStr "pending";
     "company_id" := VNone;
     "is_active" := VBool true;
     "created_at" := VDatetime (env_clock env 0 / 1000 * 1000) false;
     "updated_at" := VDatetime (env_clock env 1 / 1000 * 1000) false ]}.

(** The user [signup] returns. *)
Definition returned_user (payload : SignupRequest.t) (env : Env) : dict :=
  {[ "_id" := VStr (env_oid env);
     "name" := VStr (SignupRequest.name payload);
     "email" := VStr (lower (SignupRequest.email payload));
     "phone" := VNone;
     "role" := VStr (SignupRequest.role payload);
     "kyc_status" := VStr "pending";
     "company_id" := VNone;
     "is_active" := VBool true;
     "created_at" := VDatetime (env_clock env 0) true;
     "updated_at" := VDatetime (env_clock env 1) true ]}.

(** The store after a successful signup. *)
Definition store_after_signup (payload : SignupRequest.t) (env : Env) (h : string)
           (db : store) : store :=
  <["user" := (collection db "user" ++ [stored_user payload env h])%list]> db.

End derived.

(** The stores the application reaches from the empty store. *)
Inductive reachable `{PyBuiltins} `{Passlib} `{PyJWT} `{OsEnviron} : store → Prop :=
| reachable_empty : reachable ∅
| reachable_step (req : request) (authorization : option string) (env : Env) (db : store) :
    reachable db → reachable (app req authorization env db).2.

(** ** A reference instance of the library interfaces *)

(** A small executable stand-in for each interface, on which the handlers
    can be run: the signing input is stdpp's countable encoding of the
    payload written in binary, the signature is the key followed by the
    signing input, a token is the two joined by a dot, a digest is the
    bcrypt identifier followed by the secret and the salt, and lower-casing
    covers ASCII and the Latin-1 letters of text in UTF-8.
    Nothing in the theorems below depends on these choices. *)
Module Demo.

#[global] Instance value_countable : Countable value.
Proof.
  refine (inj_countable'
    (λ v, match v with
          | VNone => inl ()
          | VBool b => inr (inl b)
          | VInt n => inr (inr (inl n))
          | VFloat n => inr (inr (inr (inl n)))
          | VStr s => inr (inr (inr (inr (inl s))))
          | VList l => inr (inr (inr (inr (inr (inl l)))))
          | VObjectId s => inr (inr (inr (inr (inr (inr (inl s))))))
          | VDatetime n a => inr (inr (inr (inr (inr (inr (inr (n, a)))))))
          end)
    (λ x, match x with
          | inl () => VNone
          | inr (inl b) => VBool b
          | inr (inr (inl n)) => VInt n
          | inr (inr (inr (inl n))) => VFloat n
          | inr (inr (inr (inr (inl s)))) => VStr s
          | inr (inr (inr (inr (inr (inl l))))) => VList l
          | inr (inr (inr (inr (inr (inr (inl s)))))) => VObjectId s
          | inr (inr (inr (inr (inr (inr (inr (n, a))))))) => VDatetime n a
          end) _).
  by intros [].
Defined.

Fixpoint bits_of_pos (p : positive) : string :=
  match p with
  | xH => EmptyString
  | xO q => String "0" (bits_of_pos q)
  | xI q => String "1" (bits_of_pos q)
  end.

Fixpoint pos_of_bits (s : string) : option positive :=
  match s with
  | EmptyString => Some xH
  | String c r =>
      if Ascii.eqb c "0" then xO <$> pos_of_bits r
      else if Ascii.eqb c "1" then xI <$> pos_of_bits r
      else None
  end.

Definition signing_input (c : dict) : string := bits_of_pos (encode c).

Definition compact (si sig : string) : string := si +:+ String "." sig.

Definition parse (token : string) : option (string * string * dict * string) :=
  let '(si, dot, sig) := partition "." token in
  if String.eqb dot EmptyString then None
  else
    q ← pos_of_bits si;
    c ← decode q;
    Some (si, "HS256", c, sig).

Definition mac (key msg : string) : string := key +:+ "/" +:+ msg.

Definition validate_claims (c : dict) (now : Z) : option jwt_error :=
  match c !! "exp" with
  | Some (VInt e) => exp_check e now
  | _ => None
  end.

Definition hash (salt secret : string) : option string :=
  Some ("$2b$" +:+ secret +:+ "$" +:+ salt).

(** The second byte of an upper-case letter of the Latin-1 supplement
    (U+00C0 to U+00DE, without the multiplication sign) in UTF-8. *)
Definition latin1_upper (d : ascii) : bool :=
  let n := N_of_ascii d in
  ((128 <=? n) && (n <=? 158) && negb (n =? 151))%N.

(** Lower-casing of text in UTF-8 that holds ASCII and Latin-1 letters: the
    letters A..Z, and the letters U+00C0 to U+00DE behind their lead byte
    0xC3, are mapped to their lower-case letters. *)
Fixpoint lower_text (s : string) : string :=
  match s with
  | EmptyString => EmptyString
  | String c r =>
      if (N_of_ascii c =? 195)%N then
        match r with
        | EmptyString => String c EmptyString
        | String d r1 =>
            String c (String (if latin1_upper d then ascii_of_N (N_of_ascii d + 32) else d)
                             (lower_text r1))
        end
      else String (ascii_lower c) (lower_text r)
  end.

Definition verify (secret digest : string) : option bool :=
  Some (startswith ("$2b$" +:+ secret +:+ "$") digest).

Lemma pos_of_bits_of_pos p : pos_of_bits (bits_of_pos p) = Some p.
Proof. induction p as [q IH|q IH|]; simpl; [by rewrite IH..| done]. Qed.

Lemma partition_bits (p : positive) (sig : string) :
  partition "." (bits_of_pos p +:+ String "." sig) = (bits_of_pos p, ".", sig).
Proof.
  induction p as [q IH|q IH|]; simpl; [rewrite IH; reflexivity..|reflexivity].
Qed.

Lemma parse_compact (c : dict) (sig : string) :
  parse (compact (signing_input c) sig) = Some (signing_input c, "HS256", c, sig).
Proof.
  unfold parse, compact, signing_input. rewrite partition_bits.
  cbn [String.eqb]. rewrite pos_of_bits_of_pos. cbn [mbind option_bind].
  rewrite decode_encode. reflexivity.
Qed.

Lemma compact_nonempty (si sig : string) : compact si sig ≠ EmptyString.
Proof. unfold compact. destruct si; discriminate. Qed.

Lemma startswith_app (p s : string) : startswith p (p +:+ s) = true.
Proof. induction p as [|a p IH]; simpl; [done|]. by rewrite Ascii.eqb_refl, IH. Qed.

Lemma hash_identify (salt secret h : string) :
  hash salt secret = Some h → bcrypt_identify h = true.
Proof. intros [= <-]. reflexivity. Qed.

Lemma verify_hash (salt secret h : string) :
  hash salt secret = Some h → verify secret h = Some true.
Proof.
  intros [= <-]. unfold verify. f_equal.
  change ("$2b$" +:+ secret +:+ "$" +:+ salt)
    with (String "$" (String "2" (String "b" (String "$" (secret +:+ "$" +:+ salt))))).
  simpl. clear. induction secret as [|a s IH]; simpl; [done|].
  by rewrite Ascii.eqb_refl.
Qed.

Lemma validate_exp (c : dict) (now e : Z) :
  session_claims c → c !! "exp" = Some (VInt e) →
  validate_claims c now = exp_check e now.
Proof. intros _ Hexp. unfold validate_claims. by rewrite Hexp. Qed.

Lemma string_ind2 (P : string → Prop) :
  P EmptyString → (∀ c, P (String c EmptyString)) →
  (∀ c d r, P r → P (String d r) → P (String c (String d r))) →
  ∀ s, P s.
Proof.
  intros H0 H1 H2 s.
  assert (Hboth : P s ∧ ∀ c, P (String c s)).
  { induction s as [|d r [IHr IHc]]; [by split|]. split; [apply IHc|].
    intros c. apply H2; [exact IHr | apply IHc]. }
  apply Hboth.
Qed.

Lemma ascii_lower_idempotent (c : ascii) : ascii_lower (ascii_lower c) = ascii_lower c.
Proof. destruct c as [[] [] [] [] [] [] [] []]; reflexivity. Qed.

Lemma ascii_lower_not_lead (c : ascii) :
  (N_of_ascii c =? 195)%N = false → (N_of_ascii (ascii_lower c) =? 195)%N = false.
Proof. destruct c as [[] [] [] [] [] [] [] []]; intros Hc; (reflexivity || discriminate Hc). Qed.

Lemma ascii_not_lead (c : ascii) :
  (N_of_ascii c <? 128)%N = true → (N_of_ascii c =? 195)%N = false.
Proof. destruct c as [[] [] [] [] [] [] [] []]; intros Hc; (reflexivity || discriminate Hc). Qed.

Lemma latin1_lowered (d : ascii) :
  latin1_upper (if latin1_upper d then ascii_of_N (N_of_ascii d + 32) else d) = false.
Proof. destruct d as [[] [] [] [] [] [] [] []]; reflexivity. Qed.

Lemma lower_text_ascii (s : string) :
  is_ascii s = true → lower_text s = lower_ascii_text s.
Proof.
  induction s as [|c r IH]; [reflexivity|]. cbn [is_ascii lower_text lower_ascii_text].
  intros [Hc Hr]%andb_true_iff. rewrite (ascii_not_lead c Hc), (IH Hr). reflexivity.
Qed.

Lemma lower_text_cons (c : ascii) (r : string) :
  (N_of_ascii c =? 195)%N = false →
  lower_text (String c r) = String (ascii_lower c) (lower_text r).
Proof. intros Hc. destruct r; cbn [lower_text]; rewrite Hc; reflexivity. Qed.

Lemma lower_text_idempotent (s : string) : lower_text (lower_text s) = lower_text s.
Proof.
  induction s as [| c | c d r IHr IHd] using string_ind2.
  - reflexivity.
  - cbn [lower_text]. destruct (N_of_ascii c =? 195)%N eqn:Hc.
    + cbn [lower_text]. rewrite Hc. reflexivity.
    + cbn [lower_text]. rewrite (ascii_lower_not_lead c Hc), ascii_lower_idempotent.
      reflexivity.
  - destruct (N_of_ascii c =? 195)%N eqn:Hc.
    + cbn [lower_text]. rewrite Hc. cbn [lower_text]. rewrite Hc, latin1_lowered, IHr.
      reflexivity.
    + rewrite (lower_text_cons c _ Hc), (lower_text_cons _ _ (ascii_lower_not_lead c Hc)).
      rewrite ascii_lower_idempotent, IHd. reflexivity.
Qed.

Lemma lower_text_space (s : string) :
  has_space s = true → has_space (lower_text s) = true.
Proof.
  induction s as [| c | c d r IHr IHd] using string_ind2.
  - discriminate.
  - cbn [has_space lower_text]. destruct (N_of_ascii c =? 195)%N eqn:Hc; [by intros|].
    cbn [has_space]. destruct (Ascii.eqb_spec c " ") as [->|]; [reflexivity | discriminate].
  - destruct (N_of_ascii c =? 195)%N eqn:Hc.
    + cbn [lower_text]. rewrite Hc. cbn [has_space].
      destruct (Ascii.eqb_spec c " ") as [->|_]; [discriminate Hc|].
      cbn [orb]. destruct (Ascii.eqb_spec d " ") as [->|_]; [reflexivity|].
      cbn [orb]. intros Hr. rewrite (IHr Hr). apply orb_true_r.
    + rewrite (lower_text_cons c _ Hc).
      change (has_space (String c (String d r)))
        with (Ascii.eqb c " " || has_space (String d r)).
      change (has_space (String (ascii_lower c) (lower_text (String d r))))
        with (Ascii.eqb (ascii_lower c) " " || has_space (lower_text (String d r))).
      destruct (Ascii.eqb_spec c " ") as [->|_]; [reflexivity|].
      cbn [orb]. intros Hr. rewrite (IHd Hr). apply orb_true_r.
Qed.

#[export] Instance builtins : PyBuiltins :=
  {| str_other := λ _, "<object>";
     lower := lower_text;
     lower_ascii := lower_text_ascii;
     lower_idempotent := lower_text_idempotent;
     lower_space := lower_text_space |}.

#[export] Instance passlib : Passlib :=
  {| bcrypt_hash := hash; bcrypt_verify := verify;
     bcrypt_hash_identify := hash_identify; bcrypt_verify_hash := verify_hash |}.

#[export] Instance pyjwt : PyJWT :=
  {| jws_signing_input := signing_input;
     jws_compact := compact;
     jws_parse := parse;
     hmac_sha256 := mac;
     jwt_validate_claims := validate_claims;
     jws_parse_compact := λ c sig _, parse_compact c sig;
     jws_compact_nonempty := compact_nonempty;
     jwt_validate_exp := validate_exp |}.

(** No [JWT_SECRET] in the environment: the default of main.py is used. *)
#[export] Instance environ : OsEnviron := {| getenv := λ _, None |}.

End Demo.

(** * Properties *)

(** ** The store and the monad *)

Lemma doc_matches_singleton (k : string) (q : value) (d : dict) :
  doc_matches {[ k := q ]} d = field_matches (d !! k) q.
Proof.
  unfold doc_matches. rewrite map_to_list_singleton. simpl. apply andb_true_r.
Qed.

Lemma find_pointwise {A} (f g : A → bool) (l : list A) :
  (∀ a, f a = g a) → List.find f l = List.find g l.
Proof. intros Hfg. induction l as [|a l IH]; simpl; [done|]. by rewrite Hfg, IH. Qed.

Lemma find_one_email (db : store) (e : string) :
  find_one "user" {[ "email" := VStr e ]} db = (Ok (user_by_email db e), db).
Proof.
  unfold find_one, user_by_email. do 2 f_equal.
  apply find_pointwise. intros d. apply doc_matches_singleton.
Qed.

Lemma user_by_email_Some (db : store) (e : string) (u : dict) :
  user_by_email db e = Some u →
  u ∈ collection db "user" ∧ u !! "email" = Some (VStr e).
Proof.
  unfold user_by_email. intros Hf. apply List.find_some in Hf as [Hin Hb].
  split; [by apply list_elem_of_In | by apply bool_decide_eq_true in Hb].
Qed.

Lemma user_by_email_None (db : store) (e : string) :
  user_by_email db e = None ↔
  ∀ d, d ∈ collection db "user" → d !! "email" ≠ Some (VStr e).
Proof.
  unfold user_by_email. split.
  - intros Hf d Hin Heq. apply list_elem_of_In in Hin.
    pose proof (List.find_none _ _ Hf d Hin) as Hb. simpl in Hb.
    by rewrite (bool_decide_eq_true_2 _ Heq) in Hb.
  - intros Hall. destruct (List.find _ _) as [u|] eqn:Hf; [|done].
    apply List.find_some in Hf as [Hin Hb]. apply bool_decide_eq_true in Hb.
    exfalso. eapply Hall; [by apply list_elem_of_In | done].
Qed.

Lemma if_truthy_has_field (u : dict) (k : string) (v : value) :
  u !! k = Some v → if_truthy (Some u) = Some u.
Proof.
  intros Hk. unfold if_truthy. rewrite bool_decide_eq_false_2; [done|].
  intros ->. by rewrite lookup_empty in Hk.
Qed.

Lemma if_truthy_user_by_email (db : store) (e : string) :
  if_truthy (user_by_email db e) = user_by_email db e.
Proof.
  destruct (user_by_email db e) as [u|] eqn:Hu; [|done].
  apply user_by_email_Some in Hu as [_ Hu]. by eapply if_truthy_has_field.
Qed.

(** ** The token codec *)

Section token_codec_facts.
Context `{PyJWT} `{OsEnviron}.

Lemma session_claims_lookup (c : dict) :
  session_claims c ↔
  c !! "iat" = None ∧ c !! "nbf" = None ∧ c !! "aud" = None ∧ c !! "iss" = None.
Proof.
  unfold session_claims, jwt_other_registered.
  rewrite !Forall_cons, Forall_nil. tauto.
Qed.

Lemma session_claims_insert_exp (c : dict) (v : value) :
  session_claims c → session_claims (<["exp" := v]> c).
Proof.
  rewrite !session_claims_lookup. intros (? & ? & ? & ?).
  by rewrite !lookup_insert_ne.
Qed.

(** What [jwt.encode] signs for a payload whose only time claim is the
    datetime under [exp]. *)
Lemma jwt_prepare_exp (data : dict) (us : Z) (aware : bool) :
  data !! "iat" = None → data !! "nbf" = None →
  jwt_prepare (<["exp" := VDatetime us aware]> data)
  = <["exp" := VInt (us / 1000000)]> data.
Proof.
  intros Hiat Hnbf. unfold jwt_prepare, jwt_time_claims. simpl.
  rewrite (alter_id' _ _ "nbf") by by rewrite lookup_insert_ne.
  rewrite (alter_id' _ _ "iat") by by rewrite lookup_insert_ne.
  apply map_eq. intros k. destruct (decide (k = "exp")) as [->|Hk].
  - by rewrite lookup_alter_eq, !lookup_insert_eq.
  - by rewrite lookup_alter_ne, !lookup_insert_ne.
Qed.

Lemma issued_claims_serializable (data : dict) (m now : Z) :
  map_Forall (λ _ v, json_serializable v = true) data →
  map_Forall (λ _ v, json_serializable v = true) (issued_claims data m now).
Proof. intros Hd. by apply map_Forall_insert_2. Qed.

(** [create_token] returns, and returns the signed serialization of the
    data with the expiry added. *)
Lemma create_token_ok (data : dict) (m now : Z) :
  map_Forall (λ _ v, json_serializable v = true) data →
  session_claims data →
  create_token data m now = Ok (issued_token data m now).
Proof.
  intros Hjson Hs. apply session_claims_lookup in Hs as (Hiat & Hnbf & _).
  unfold create_token, jwt_encode. rewrite jwt_prepare_exp by done.
  fold (expiry m now). fold (issued_claims data m now).
  rewrite bool_decide_eq_true_2 by by apply issued_claims_serializable.
  done.
Qed.

Lemma algorithm_allowed (alg : string) :
  bool_decide (alg ∈ [JWT_ALG]) = bool_decide (alg = JWT_ALG).
Proof. apply bool_decide_ext, list_elem_of_singleton. Qed.

(** What [jwt.decode] makes of a token this program issued. *)
Lemma jwt_decode_issued (data : dict) (m t now : Z) :
  map_Forall (λ _ v, json_serializable v = true) data →
  session_claims data →
  jwt_decode (issued_token data m t) JWT_SECRET [JWT_ALG] now
  = match exp_check (expiry m t) now with
    | Some e => inl e
    | None => inr (issued_claims data m t)
    end.
Proof.
  intros Hjson Hs. unfold jwt_decode, issued_token.
  rewrite jws_parse_compact by by apply issued_claims_serializable.
  rewrite algorithm_allowed, bool_decide_eq_true_2 by done.
  rewrite String.eqb_refl. simpl.
  rewrite (jwt_validate_exp _ now (expiry m t)).
  - done.
  - by apply session_claims_insert_exp.
  - unfold issued_claims. by rewrite lookup_insert_eq.
Qed.

Lemma decode_token_issued (data : dict) (m t now : Z) :
  map_Forall (λ _ v, json_serializable v = true) data →
  session_claims data →
  decode_token (issued_token data m t) now
  = if expiry m t * 1000000 <=? now
    then HTTPException 401 "Token expired"
    else Ok (issued_claims data m t).
Proof.
  intros Hjson Hs. unfold decode_token. rewrite jwt_decode_issued by done.
  unfold exp_check. by destruct (_ <=? _).
Qed.

(** [decode_token] has three outcomes and no other. *)
Lemma decode_token_outcomes (token : string) (now : Z) :
  (∃ payload, decode_token token now = Ok payload)
  ∨ decode_token token now = HTTPException 401 "Token expired"
  ∨ decode_token token now = HTTPException 401 "Invalid token".
Proof.
  unfold decode_token.
  destruct (jwt_decode _ _ _ _) as [[]|payload]; eauto.
Qed.
End token_codec_facts.

Section token_codec_claims.
Context `{PyJWT} `{OsEnviron}.

(** A token issued with a positive lifetime is unexpired when issued. *)
Lemma fresh_token_unexpired (expires_minutes t : Z) :
  0 < expires_minutes → t < expiry expires_minutes t * 1000000.
Proof.
  intros Hm. unfold expiry.
  pose proof (Z.mul_div_le (t + expires_minutes * 60000000) 1000000 ltac:(lia)).
  pose proof (Z.mod_pos_bound (t + expires_minutes * 60000000) 1000000 ltac:(lia)).
  pose proof (Z.div_mod (t + expires_minutes * 60000000) 1000000 ltac:(lia)).
  lia.
Qed.

(** C5.  Decoding a token issued for a subject and a role
    returns the subject and the role unchanged together with the expiry
    claim [exp], the whole second at which the token expires, and nothing
    else; this holds at every instant before that second, and the instant
    of issue is such an instant whenever the lifetime is positive. *)
Theorem token_roundtrip (subject role : string) (expires_minutes t now : Z) :
  now < expiry expires_minutes t * 1000000 →
  (∃ token,
     create_token {[ "sub" := VStr subject; "role" := VStr role ]} expires_minutes t
     = Ok token
     ∧ decode_token token now
       = Ok {[ "sub" := VStr subject; "role" := VStr role;
               "exp" := VInt (expiry expires_minutes t) ]})
  ∧ (0 < expires_minutes → t < expiry expires_minutes t * 1000000).
Proof.
  intros Hnow. split; [|apply fresh_token_unexpired].
  set (data := ({[ "sub" := VStr subject; "role" := VStr role ]} : dict)).
  assert (Hjson : map_Forall (λ _ v, json_serializable v = true) data).
  { subst data. apply map_Forall_insert_2; [done|]. by apply map_Forall_singleton. }
  assert (Hs : session_claims data).
  { apply session_claims_lookup. subst data. by rewrite !lookup_insert_ne. }
  exists (issued_token data expires_minutes t). split.
  - by apply create_token_ok.
  - rewrite decode_token_issued by done.
    destruct (Z.leb_spec (expiry expires_minutes t * 1000000) now); [lia|].
    reflexivity.
Qed.

(** C6.  A malformed token, a token under another algorithm and a token
    whose signature does not match are each rejected with 401 "Invalid
    token", whatever their expiry.  A well-formed, well-signed token whose
    [exp] second has been reached is rejected with 401 "Token expired",
    in particular when [exp] is one second before now; one whose [exp]
    lies ahead, in particular one second after now, is accepted with its
    claims.  A token rejected as expired is well-formed and well-signed,
    so the two kinds of failure do not overlap, and [decode_token] has no
    outcome beyond these three. *)
Theorem decode_token_failures (token : string) (now : Z) :
  (jws_parse token = None →
   decode_token token now = HTTPException 401 "Invalid token")
  ∧ (∀ si alg payload sig,
       jws_parse token = Some (si, alg, payload, sig) →
       (alg ≠ JWT_ALG ∨ sig ≠ hmac_sha256 JWT_SECRET si →
        decode_token token now = HTTPException 401 "Invalid token")
       ∧ (∀ e, alg = JWT_ALG → sig = hmac_sha256 JWT_SECRET si →
               session_claims payload → payload !! "exp" = Some (VInt e) →
               (e * 1000000 ≤ now →
                decode_token token now = HTTPException 401 "Token expired")
               ∧ (now < e * 1000000 → decode_token token now = Ok payload)
               ∧ (e = now / 1000000 - 1 →
                  decode_token token now = HTTPException 401 "Token expired")
               ∧ (e = now / 1000000 + 1 → decode_token token now = Ok payload)))
  ∧ (decode_token token now = HTTPException 401 "Token expired" →
     ∃ si payload,
       jws_parse token = Some (si, JWT_ALG, payload, hmac_sha256 JWT_SECRET si))
  ∧ ((∃ payload, decode_token token now = Ok payload)
     ∨ decode_token token now = HTTPException 401 "Token expired"
     ∨ decode_token token now = HTTPException 401 "Invalid token").
Proof.
  split; [|split; [|split]].
  - intros Hp. unfold decode_token, jwt_decode. by rewrite Hp.
  - intros si alg payload sig Hp. split.
    + intros Hbad. unfold decode_token, jwt_decode. rewrite Hp.
      destruct (decide (alg = JWT_ALG)) as [->|Halg].
      * destruct Hbad as [|Hsig]; [done|].
        rewrite algorithm_allowed, bool_decide_eq_true_2 by done. simpl.
        apply String.eqb_neq in Hsig. by rewrite Hsig.
      * by rewrite algorithm_allowed, bool_decide_eq_false_2.
    + intros e -> -> Hs Hexp.
      assert (Hd : decode_token token now
                   = if e * 1000000 <=? now then HTTPException 401 "Token expired"
                     else Ok payload).
      { unfold decode_token, jwt_decode. rewrite Hp.
        rewrite algorithm_allowed, bool_decide_eq_true_2 by done.
        rewrite String.eqb_refl. simpl.
        rewrite (jwt_validate_exp _ now e) by done.
        unfold exp_check. by destruct (_ <=? _). }
      pose proof (Z.mod_pos_bound now 1000000 ltac:(lia)).
      pose proof (Z.div_mod now 1000000 ltac:(lia)).
      rewrite Hd. repeat split; intros; destruct (Z.leb_spec (e * 1000000) now); done || lia.
  - unfold decode_token, jwt_decode.
    destruct (jws_parse token) as [[[[si alg] payload] sig]|]; [|done].
    destruct (decide (alg = JWT_ALG)) as [->|Halg].
    + rewrite algorithm_allowed, bool_decide_eq_true_2 by done. simpl.
      destruct (String.eqb_spec sig (hmac_sha256 JWT_SECRET si)) as [->|]; [|done].
      eauto.
    + by rewrite algorithm_allowed, bool_decide_eq_false_2.
  - apply decode_token_outcomes.
Qed.
End token_codec_claims.

(** ** The session resolver *)

Section session_resolver.
Context `{PyBuiltins} `{PyJWT} `{OsEnviron}.

(** The resolver on a header that is present and not empty, step by
    step. *)
Lemma get_current_user_present (a scheme sep token : string) (now : Z) (db : store) :
  a ≠ EmptyString → partition " " a = (scheme, sep, token) →
  get_current_user (Some a) now db
  = if negb (String.eqb (lower scheme) "bearer") || String.eqb token EmptyString
    then (HTTPException 401 "Invalid auth header", db)
    else match decode_token token now with
         | Ok payload =>
             match if_truthy (List.find (doc_matches {[ "email" := dict_get payload "sub" ]})
                                        (collection db "user")) with
             | None => (HTTPException 401 "User not found", db)
             | Some user => (Ok (sanitize user), db)
             end
         | HTTPException c d => (HTTPException c d, db)
         | Uncaught e => (Uncaught e, db)
         end.
Proof.
  intros Ha Hp. unfold get_current_user. destruct a as [|c r]; [done|].
  rewrite Hp. destruct (_ || _); [done|].
  unfold mbind, M_bind, lift, find_one, mret, M_ret, raise.
  destruct (decode_token token now); [|done..].
  by destruct (if_truthy _).
Qed.

(** The resolver only reads the store. *)
Lemma get_current_user_readonly (authorization : option string) (now : Z) (db : store) :
  (get_current_user authorization now db).2 = db.
Proof.
  destruct authorization as [a|]; [|done].
  destruct (decide (a = EmptyString)) as [->|Ha]; [done|].
  destruct (partition " " a) as [[scheme sep] token] eqn:Hp.
  rewrite (get_current_user_present _ _ _ _ _ _ Ha Hp).
  destruct (_ || _); [done|]. destruct (decode_token _ _); [|done..].
  by destruct (if_truthy _).
Qed.

(** What [sanitize] makes of a user record: no [password_hash], the [_id]
    as a string ([None] where the record has no [_id]), every other field
    as it was. *)
Lemma sanitize_password_hash (user : dict) : sanitize user !! "password_hash" = None.
Proof. unfold sanitize. apply lookup_delete_eq. Qed.

Lemma sanitize_id (user : dict) :
  sanitize user !! "_id"
  = Some (match user !! "_id" with Some v => VStr (py_str v) | None => VNone end).
Proof.
  unfold sanitize, stringify_id.
  rewrite lookup_delete_ne by discriminate. apply lookup_insert_eq.
Qed.

Lemma sanitize_other (user : dict) (k : string) :
  k ≠ "_id" → k ≠ "password_hash" → sanitize user !! k = user !! k.
Proof.
  intros Hid Hpw. unfold sanitize, stringify_id.
  rewrite lookup_delete_ne by congruence. apply lookup_insert_ne. congruence.
Qed.

(** C2.  The resolver fails with 401 when the header is absent (or
    empty); with 401 when the scheme before the first space is not
    "bearer" in some letter case or nothing follows that space; with the
    codec's 401 when the token does not verify; with 401 when the token
    verifies and no stored user has the token's subject as email; and
    otherwise returns the first such user, sanitized: the returned dict
    has no [password_hash], its [_id] is the string of the stored [_id]
    ([None] where the record has none), and every other field is the
    stored one.  The store is left as it was. *)
Theorem get_current_user_cases (authorization : option string) (now : Z) (db : store) :
  (authorization = None ∨ authorization = Some EmptyString →
   get_current_user authorization now db
   = (HTTPException 401 "Missing Authorization header", db))
  ∧ (∀ a scheme sep token,
       authorization = Some a → a ≠ EmptyString →
       partition " " a = (scheme, sep, token) →
       (lower scheme ≠ "bearer" ∨ token = EmptyString →
        get_current_user authorization now db
        = (HTTPException 401 "Invalid auth header", db))
       ∧ (lower scheme = "bearer" → token ≠ EmptyString →
          (∀ c d, decode_token token now = HTTPException c d →
                  c = 401
                  ∧ get_current_user authorization now db = (HTTPException 401 d, db))
          ∧ (∀ payload e,
               decode_token token now = Ok payload →
               payload !! "sub" = Some (VStr e) →
               (user_by_email db e = None →
                get_current_user authorization now db
                = (HTTPException 401 "User not found", db))
               ∧ (∀ user,
                    user_by_email db e = Some user →
                    ∃ u, get_current_user authorization now db = (Ok u, db)
                         ∧ u = sanitize user
                         ∧ u !! "password_hash" = None
                         ∧ (∀ v, user !! "_id" = Some v →
                                 u !! "_id" = Some (VStr (py_str v)))
                         ∧ (user !! "_id" = None → u !! "_id" = Some VNone)
                         ∧ (∀ k, k ≠ "_id" → k ≠ "password_hash" →
                                 u !! k = user !! k)))))
  ∧ (get_current_user authorization now db).2 = db.
Proof.
  split; [|split].
  - by intros [-> | ->].
  - intros a scheme sep token -> Ha Hp.
    rewrite (get_current_user_present _ _ _ _ _ _ Ha Hp). split.
    + intros [Hs | ->].
      * apply String.eqb_neq in Hs. by rewrite Hs.
      * by rewrite orb_true_r.
    + intros Hs Ht. apply String.eqb_eq in Hs. apply String.eqb_neq in Ht.
      rewrite Hs, Ht. simpl. split.
      * intros c d Hd. rewrite Hd. split; [|].
        -- destruct (decode_token_outcomes token now) as [[p Hp']|[Hp'|Hp']];
             rewrite Hp' in Hd; by inversion Hd.
        -- destruct (decode_token_outcomes token now) as [[p Hp']|[Hp'|Hp']];
             rewrite Hp' in Hd; by inversion Hd.
      * intros payload e -> Hsub.
        unfold dict_get. rewrite Hsub. simpl.
        rewrite (find_pointwise _ (λ d, bool_decide (d !! "email" = Some (VStr e))))
          by (intros d; apply doc_matches_singleton).
        fold (user_by_email db e). rewrite if_truthy_user_by_email.
        split; [by intros ->|]. intros user ->.
        exists (sanitize user). split; [reflexivity|]. split; [reflexivity|].
        split; [apply sanitize_password_hash|]. rewrite sanitize_id.
        split; [by intros v ->|]. split; [by intros ->|].
        intros k Hid Hpw. by apply sanitize_other.
  - apply get_current_user_readonly.
Qed.
End session_resolver.

(** ** The credential hasher *)

Section credential_hasher_facts.
Context `{Passlib}.

Lemma bcrypt_identify_empty : bcrypt_identify EmptyString = false.
Proof. reflexivity. Qed.

(** The hasher answers or lets an exception escape; it raises no
    [HTTPException]. *)
Lemma verify_password_no_http (pw : string) (hashed : value) (c : Z) (d : string) :
  verify_password pw hashed ≠ HTTPException c d.
Proof.
  unfold verify_password, pwd_context_verify.
  destruct hashed as [| | | |h| | |]; try done.
  destruct (bcrypt_identify h); [|done]. by destruct (bcrypt_verify pw h).
Qed.


(** C9.  [verify_password] is not total: it hands the digest to the
    CryptContext and handles none of its errors.  On the empty string,
    which [login] passes for a record without [password_hash], and on every
    other digest string that no configured scheme identifies, it does not
    return false: [UnknownHashError] escapes to the caller. *)
Theorem verify_password_unknown_hash (pw : string) :
  verify_password pw (VStr EmptyString) = Uncaught UnknownHashError
  ∧ verify_password pw (VStr EmptyString) ≠ Ok false
  ∧ ∀ h, bcrypt_identify h = false →
         verify_password pw (VStr h) = Uncaught UnknownHashError
         ∧ verify_password pw (VStr h) ≠ Ok false.
Proof.
  split; [reflexivity|]. split; [discriminate|].
  intros h Hid. unfold verify_password, pwd_context_verify. rewrite Hid.
  split; [reflexivity | discriminate].
Qed.
End credential_hasher_facts.

(** ** Login *)

Section login_facts.
Context `{PyBuiltins} `{Passlib} `{PyJWT} `{OsEnviron}.

Lemma create_token_no_http (data : dict) (m now c : Z) (d : string) :
  create_token data m now ≠ HTTPException c d.
Proof. unfold create_token, jwt_encode. by destruct (bool_decide _). Qed.

(** [login], step by step. *)
Lemma login_unfold (payload : LoginRequest.t) (now : Z) (db : store) :
  let email := lower (LoginRequest.email payload) in
  login payload now db
  = match user_by_email db email with
    | None => (HTTPException 401 "Invalid credentials", db)
    | Some user =>
        match verify_password (LoginRequest.password payload)
                (dict_get_default user "password_hash" (VStr EmptyString)) with
        | Ok false => (HTTPException 401 "Invalid credentials", db)
        | Ok true =>
            if truthy (dict_get_default user "is_active" (VBool true)) then
              match create_token (login_claims email user) 60 now with
              | Ok token => (Ok (AuthResponse.make token (sanitize user)), db)
              | HTTPException c d => (HTTPException c d, db)
              | Uncaught e => (Uncaught e, db)
              end
            else (HTTPException 403 "User deactivated", db)
        | HTTPException c d => (HTTPException c d, db)
        | Uncaught e => (Uncaught e, db)
        end
    end.
Proof.
  intros email. unfold login. fold email.
  unfold mbind at 1. unfold M_bind. rewrite find_one_email.
  rewrite if_truthy_user_by_email.
  destruct (user_by_email db email) as [user|]; [|done].
  unfold mbind, M_bind, lift, raise, mret, M_ret.
  destruct (verify_password _ _) as [[]| |]; [|done..].
  simpl. destruct (truthy _); [|done]. simpl.
  fold (login_claims email user).
  by destruct (create_token _ _ _).
Qed.

(** C4.  [login] does not answer every attempt with 401, 403 or a token.
    Where the stored record of the lowercased email has no
    [password_hash], [login] passes the empty string as digest, and where
    the stored digest is a string no configured scheme identifies it
    passes that: the CryptContext raises [UnknownHashError], nothing in
    [login] catches it, and the attempt is not answered with 401 "Invalid
    credentials".  The store is as it was. *)
Theorem login_unverifiable_digest (payload : LoginRequest.t) (now : Z) (db : store)
        (user : dict) :
  user_by_email db (lower (LoginRequest.email payload)) = Some user →
  user !! "password_hash" = None
  ∨ (∃ h, user !! "password_hash" = Some (VStr h) ∧ bcrypt_identify h = false) →
  login payload now db = (Uncaught UnknownHashError, db)
  ∧ (login payload now db).1 ≠ HTTPException 401 "Invalid credentials".
Proof.
  intros Hu Hpw. rewrite login_unfold. cbn zeta. rewrite Hu.
  assert (Hv : verify_password (LoginRequest.password payload)
                 (dict_get_default user "password_hash" (VStr EmptyString))
               = Uncaught UnknownHashError).
  { unfold dict_get_default, verify_password, pwd_context_verify.
    destruct Hpw as [-> | (h & -> & Hid)]; cbn [default from_option id];
      [reflexivity|].
    rewrite Hid. reflexivity. }
  rewrite Hv. split; [reflexivity | discriminate].
Qed.

(** X17.  Where [verify_password] returns a verdict on the stored digest
    (the empty string where the record has none): [login] answers 401
    "Invalid credentials" exactly when no user has the lowercased email or
    the verdict is false, whether or not the user is active; when the
    verdict is true and [is_active] is false it answers 403 "User
    deactivated"; when the verdict is true, the user is active and the
    stored role can go into a JSON payload, it returns the issued token,
    the token type "bearer" and the user without [password_hash], with the
    [_id] as a string and every other field as stored.  The store is never
    changed. *)
Theorem login_cases (payload : LoginRequest.t) (now : Z) (db : store) :
  let email := lower (LoginRequest.email payload) in
  let verdict user :=
    verify_password (LoginRequest.password payload)
      (dict_get_default user "password_hash" (VStr EmptyString)) in
  ((login payload now db).1 = HTTPException 401 "Invalid credentials" ↔
   user_by_email db email = None
   ∨ ∃ user, user_by_email db email = Some user ∧ verdict user = Ok false)
  ∧ (∀ user,
       user_by_email db email = Some user → verdict user = Ok true →
       (user !! "is_active" = Some (VBool false) →
        (login payload now db).1 = HTTPException 403 "User deactivated")
       ∧ (truthy (dict_get_default user "is_active" (VBool true)) = false →
          (login payload now db).1 = HTTPException 403 "User deactivated")
       ∧ (truthy (dict_get_default user "is_active" (VBool true)) = true →
          json_serializable (dict_get user "role") = true →
          ∃ r, (login payload now db).1 = Ok r
               ∧ AuthResponse.access_token r
                 = issued_token (login_claims email user) 60 now
               ∧ AuthResponse.token_type r = "bearer"
               ∧ AuthResponse.user r = sanitize user
               ∧ AuthResponse.user r !! "password_hash" = None
               ∧ (∀ v, user !! "_id" = Some v →
                       AuthResponse.user r !! "_id" = Some (VStr (py_str v)))
               ∧ (∀ k, k ≠ "_id" → k ≠ "password_hash" →
                       AuthResponse.user r !! k = user !! k)))
  ∧ (login payload now db).2 = db.
Proof.
  intros email verdict. rewrite login_unfold. fold email.
  split; [|split].
  - split.
    + destruct (user_by_email db email) as [user|] eqn:Hu; [|by left].
      intros Hr. right. exists user. split; [reflexivity|]. unfold verdict.
      destruct (verify_password _ _) as [[]| |] eqn:Hv; try reflexivity.
      * destruct (truthy _); [|cbn [fst] in Hr; discriminate Hr].
        destruct (create_token _ _ _) eqn:Hc; cbn [fst] in Hr; [discriminate Hr| |discriminate Hr].
        by apply create_token_no_http in Hc.
      * by apply verify_password_no_http in Hv.
      * cbn [fst] in Hr. discriminate Hr.
    + intros [-> | (user & -> & Hv)]; [reflexivity|]. unfold verdict in Hv.
      rewrite Hv. reflexivity.
  - intros user Hu Hv. unfold verdict in Hv. rewrite Hu, Hv.
    split; [|split].
    + intros Ha. unfold dict_get_default. rewrite Ha. reflexivity.
    + intros ->. reflexivity.
    + intros -> Hrole. rewrite create_token_ok.
      * eexists. split; [reflexivity|]. unfold AuthResponse.make.
        cbn [AuthResponse.access_token AuthResponse.token_type AuthResponse.user].
        split; [reflexivity|]. split; [reflexivity|]. split; [reflexivity|].
        split; [apply sanitize_password_hash|]. split.
        -- intros v Hid. rewrite sanitize_id, Hid. reflexivity.
        -- intros k Hid Hpw. by apply sanitize_other.
      * unfold login_claims. apply map_Forall_insert_2; [reflexivity|].
        apply map_Forall_singleton. exact Hrole.
      * apply session_claims_lookup. unfold login_claims.
        rewrite !lookup_insert_ne by discriminate. 
        rewrite !lookup_singleton_ne by discriminate. auto.
  - destruct (user_by_email db email) as [user|]; [|reflexivity].
    destruct (verify_password _ _) as [[]| |]; try reflexivity.
    destruct (truthy _); [|reflexivity]. destruct (create_token _ _ _); reflexivity.
Qed.
End login_facts.

(** ** Signup *)

Lemma collection_insert_eq (db : store) (name : string) (l : list dict) :
  collection (<[name := l]> db) name = l.
Proof. unfold collection. rewrite lookup_insert_eq. reflexivity. Qed.

Lemma collection_insert_ne (db : store) (name name' : string) (l : list dict) :
  name ≠ name' → collection (<[name := l]> db) name' = collection db name'.
Proof. intros Hne. unfold collection. rewrite lookup_insert_ne by exact Hne. reflexivity. Qed.

Lemma find_snoc {A} (f : A → bool) (l : list A) (x : A) :
  List.find f l = None →
  List.find f (l ++ [x])%list = if f x then Some x else None.
Proof.
  induction l as [|a l IH]; simpl; [reflexivity|].
  destruct (f a); [discriminate|]. exact IH.
Qed.

Lemma find_snoc_Some {A} (f : A → bool) (l : list A) (x y : A) :
  List.find f l = Some y → List.find f (l ++ [x])%list = Some y.
Proof.
  induction l as [|a l IH]; simpl; [discriminate|].
  destruct (f a); [intros Hy; exact Hy|]. exact IH.
Qed.

Section signup_facts.
Context `{PyBuiltins} `{Passlib} `{PyJWT} `{OsEnviron}.

Lemma signup_claims_ok (email role : string) (m now : Z) :
  create_token (signup_claims email role) m now
  = Ok (issued_token (signup_claims email role) m now).
Proof.
  apply create_token_ok.
  - unfold signup_claims. apply map_Forall_insert_2; [reflexivity|].
    apply map_Forall_singleton. reflexivity.
  - apply session_claims_lookup. unfold signup_claims.
    rewrite !lookup_insert_ne by discriminate.
    rewrite !lookup_singleton_ne by discriminate. auto.
Qed.

(** [signup], step by step. *)
Lemma signup_unfold (payload : SignupRequest.t) (env : Env) (db : store) :
  let email := lower (SignupRequest.email payload) in
  signup payload env db
  = match user_by_email db email with
    | Some _ => (HTTPException 400 "Email already registered", db)
    | None =>
        match hash_password (env_salt env) (SignupRequest.password payload) with
        | Ok h =>
            (Ok (AuthResponse.make
                   (issued_token (signup_claims email (SignupRequest.role payload))
                                 60 (env_clock env 2))
                   (returned_user payload env)),
             <["user" := (collection db "user" ++ [stored_user payload env h])%list]> db)
        | HTTPException c d => (HTTPException c d, db)
        | Uncaught e => (Uncaught e, db)
        end
    end.
Proof.
  intros email. unfold signup. fold email.
  unfold mbind at 1. unfold M_bind. rewrite find_one_email.
  rewrite if_truthy_user_by_email.
  destruct (user_by_email db email) as [user|]; [reflexivity|].
  unfold mbind at 1. unfold M_bind, lift.
  destruct (hash_password _ _) as [h| |]; [|reflexivity..].
  unfold mbind at 1. unfold M_bind, insert_one.
  fold (signup_claims email (SignupRequest.role payload)).
  unfold mbind, M_bind, lift. rewrite signup_claims_ok.
  reflexivity.
Qed.
End signup_facts.

(** ** The role gates *)

Lemma role_in_singleton (user : dict) (r : string) :
  role_in user [r] = role_is user r.
Proof.
  unfold role_in, role_is. apply bool_decide_ext.
  change (VStr <$> [r]) with [VStr r]. apply list_elem_of_singleton.
Qed.

(** [role_in] is membership of the caller's role, a string, in the list. *)
Lemma role_in_spec (user : dict) (rs : list string) :
  role_in user rs = true ↔ ∃ r, r ∈ rs ∧ user !! "role" = Some (VStr r).
Proof.
  unfold role_in. rewrite bool_decide_eq_true, list_elem_of_fmap. split.
  - intros (r & Hr & Hin). exists r. split; [exact Hin|].
    unfold dict_get in Hr. destruct (user !! "role") as [v|]; simpl in Hr.
    + by rewrite Hr.
    + discriminate Hr.
  - intros (r & Hin & Hr). exists r. split; [|exact Hin].
    unfold dict_get. rewrite Hr. reflexivity.
Qed.

Section role_gates.
Context `{PyBuiltins} `{Passlib} `{PyJWT} `{OsEnviron}.

Ltac gate Hauth :=
  unfold app, mbind, M_bind; rewrite Hauth;
  rewrite ?role_in_singleton.

(** A route of the table, called by a resolved user: the handler's role
    check decides between a result and 403, and a refusal leaves the
    store as it was. *)
Lemma app_gate (req : request) (e : endpoint) (rs : list string)
      (authorization : option string) (env : Env) (db : store) (user : dict) :
  endpoint_of req = Some e → allowed_roles e = Some rs →
  get_current_user authorization (env_clock env 0) db = (Ok user, db) →
  if role_in user rs
  then is_ok (app req authorization env db).1 = true
  else ∃ detail, app req authorization env db = (HTTPException 403 detail, db).
Proof.
  intros He Hrs Hauth.
  destruct req; cbn [endpoint_of] in He; try discriminate He;
    injection He as <-; cbn [allowed_roles] in Hrs; try discriminate Hrs;
    injection Hrs as <-; gate Hauth.
  - unfold create_product. destruct (role_is user "vendor"); [reflexivity|]. eexists. reflexivity.
  - unfold my_products. destruct (role_is user "vendor"); [reflexivity|]. eexists. reflexivity.
  - unfold create_requirement. destruct (role_is user "buyer"); [reflexivity|]. eexists. reflexivity.
  - unfold my_requirements. destruct (role_is user "buyer"); [reflexivity|]. eexists. reflexivity.
  - unfold create_project. destruct (role_in user _); [reflexivity|]. eexists. reflexivity.
  - unfold invest. destruct (role_is user "investor"); [reflexivity|]. eexists. reflexivity.
  - unfold create_job. destruct (role_in user _); [reflexivity|]. eexists. reflexivity.
  - unfold apply_job. destruct (role_in user _); [reflexivity|]. eexists. reflexivity.
  - unfold admin_overview. destruct (role_is user "admin"); [reflexivity|]. eexists. reflexivity.
Qed.

(** A public route of the table never looks at the header. *)
Lemma app_public (req : request) (e : endpoint)
      (authorization : option string) (env : Env) (db : store) :
  endpoint_of req = Some e → allowed_roles e = None →
  is_ok (app req authorization env db).1 = true
  ∧ app req authorization env db = app req None env db.
Proof.
  intros He Hrs.
  destruct req; cbn [endpoint_of] in He; try discriminate He;
    injection He as <-; cbn [allowed_roles] in Hrs; try discriminate Hrs;
    split; reflexivity.
Qed.

(** A route that declares the resolver as dependency fails as the
    resolver fails. *)
Lemma app_unauthenticated (req : request) (e : endpoint) (rs : list string)
      (authorization : option string) (env : Env) (db : store) (c : Z) (d : string) :
  endpoint_of req = Some e → allowed_roles e = Some rs →
  get_current_user authorization (env_clock env 0) db = (HTTPException c d, db) →
  app req authorization env db = (HTTPException c d, db).
Proof.
  intros He Hrs Hauth.
  destruct req; cbn [endpoint_of] in He; try discriminate He;
    injection He as <-; cbn [allowed_roles] in Hrs; try discriminate Hrs;
    gate Hauth; reflexivity.
Qed.
End role_gates.

Section access_policy.
Context `{PyBuiltins} `{Passlib} `{PyJWT} `{OsEnviron}.

(** C1.  For a route of the table of section 4.4: a public route succeeds
    whatever the [Authorization] header, also without one; a protected
    route called by an authenticated user succeeds exactly when the
    user's role is in the allowed set of the table, and otherwise answers
    403 and leaves the store untouched.  Nothing but the role enters the
    decision: the statement holds for every store, every request body
    and every user record. *)
Theorem rbac_matrix (req : request) (e : endpoint)
        (authorization : option string) (env : Env) (db : store) :
  endpoint_of req = Some e →
  match allowed_roles e with
  | None => is_ok (app req authorization env db).1 = true
            ∧ is_ok (app req None env db).1 = true
  | Some rs =>
      ∀ user,
        (get_current_user authorization (env_clock env 0) db).1 = Ok user →
        (is_ok (app req authorization env db).1 = true ↔
         ∃ r, r ∈ rs ∧ user !! "role" = Some (VStr r))
        ∧ ((¬ ∃ r, r ∈ rs ∧ user !! "role" = Some (VStr r)) →
           status_of (app req authorization env db).1 = Some 403
           ∧ (app req authorization env db).2 = db)
  end.
Proof.
  intros He. destruct (allowed_roles e) as [rs|] eqn:Hrs.
  - intros user Hu.
    assert (Hauth : get_current_user authorization (env_clock env 0) db = (Ok user, db)).
    { pose proof (get_current_user_readonly authorization (env_clock env 0) db) as Hro.
      destruct (get_current_user _ _ _) as [o db']. simpl in Hu, Hro. by subst. }
    pose proof (app_gate req e rs authorization env db user He Hrs Hauth) as Hg.
    rewrite <- role_in_spec. destruct (role_in user rs).
    + split; [by split|]. intros Hn. by destruct Hn.
    + destruct Hg as [detail ->]. split; [by split|]. by intros _.
  - split.
    + by eapply app_public.
    + by eapply app_public.
Qed.
End access_policy.

(** ** Sessions of issued tokens *)

Section sessions.
Context `{PyBuiltins} `{Passlib} `{PyJWT} `{OsEnviron}.

Lemma role_in_sanitize (user : dict) (rs : list string) :
  role_in (sanitize user) rs = role_in user rs.
Proof.
  unfold role_in, dict_get. rewrite sanitize_other by discriminate. reflexivity.
Qed.

(** The resolver on a bearer header whose token verifies. *)
Lemma resolve_bearer (token : string) (claims : dict) (now : Z) (db : store)
      (e : string) (user : dict) :
  token ≠ EmptyString →
  decode_token token now = Ok claims →
  claims !! "sub" = Some (VStr e) →
  user_by_email db e = Some user →
  get_current_user (Some ("Bearer " +:+ token)) now db = (Ok (sanitize user), db).
Proof.
  intros Ht Hd Hsub Hu.
  rewrite (get_current_user_present _ "Bearer" " " token) by (discriminate || reflexivity).
  apply String.eqb_neq in Ht.
  rewrite (lower_ascii "Bearer") by reflexivity.
  change (lower_ascii_text "Bearer") with "bearer". rewrite String.eqb_refl, Ht, Hd.
  cbn [negb orb]. unfold dict_get. rewrite Hsub. cbn [default].
  rewrite (find_pointwise _ (λ d, bool_decide (d !! "email" = Some (VStr e))))
    by (intros d; apply doc_matches_singleton).
  fold (user_by_email db e). rewrite if_truthy_user_by_email, Hu. reflexivity.
Qed.

Lemma issued_token_nonempty (data : dict) (m t : Z) : issued_token data m t ≠ EmptyString.
Proof. apply jws_compact_nonempty. Qed.

(** A caller holding a token that verifies passes every gate that admits
    the role of the stored user the token names. *)
Lemma bearer_passes_gates (token : string) (claims : dict) (db : store)
      (e : string) (user : dict) (req : request) (ep : endpoint) (rs : list string)
      (env : Env) :
  token ≠ EmptyString →
  decode_token token (env_clock env 0) = Ok claims →
  claims !! "sub" = Some (VStr e) →
  user_by_email db e = Some user →
  endpoint_of req = Some ep → allowed_roles ep = Some rs →
  (∃ r, r ∈ rs ∧ user !! "role" = Some (VStr r)) →
  is_ok (app req (Some ("Bearer " +:+ token)) env db).1 = true.
Proof.
  intros Ht Hd Hsub Hu Hep Hrs Hrole.
  pose proof (resolve_bearer token claims (env_clock env 0) db e user Ht Hd Hsub Hu) as Hauth.
  pose proof (app_gate req ep rs _ env db _ Hep Hrs Hauth) as Hg.
  apply role_in_spec in Hrole. rewrite role_in_sanitize, Hrole in Hg. exact Hg.
Qed.

(** C10.  The resolver does not read [is_active]: a stored user whose
    [is_active] is false and who presents a token that verifies is
    resolved to the sanitized user without error, and so passes every
    gate that admits the user's role until the token expires.
    Deactivation is enforced by [login] alone, which answers 403 for such
    a user once the password has verified, and which treats a record
    without the [is_active] field as active. *)
Theorem resolver_ignores_is_active (token : string) (claims : dict) (now : Z)
        (db : store) (e : string) (user : dict) :
  token ≠ EmptyString →
  decode_token token now = Ok claims →
  claims !! "sub" = Some (VStr e) →
  user_by_email db e = Some user →
  user !! "is_active" = Some (VBool false) →
  get_current_user (Some ("Bearer " +:+ token)) now db = (Ok (sanitize user), db)
  ∧ (∀ req ep rs env,
       env_clock env 0 = now →
       endpoint_of req = Some ep → allowed_roles ep = Some rs →
       (∃ r, r ∈ rs ∧ user !! "role" = Some (VStr r)) →
       is_ok (app req (Some ("Bearer " +:+ token)) env db).1 = true)
  ∧ (∀ payload now',
       lower (LoginRequest.email payload) = e →
       verify_password (LoginRequest.password payload)
         (dict_get_default user "password_hash" (VStr EmptyString)) = Ok true →
       (login payload now' db).1 = HTTPException 403 "User deactivated")
  ∧ (∀ payload now' db' user',
       user_by_email db' (lower (LoginRequest.email payload)) = Some user' →
       user' !! "is_active" = None →
       verify_password (LoginRequest.password payload)
         (dict_get_default user' "password_hash" (VStr EmptyString)) = Ok true →
       json_serializable (dict_get user' "role") = true →
       is_ok (login payload now' db').1 = true).
Proof.
  intros Ht Hd Hsub Hu Hactive. split; [|split; [|split]].
  - by apply (resolve_bearer token claims now db e user).
  - intros req ep rs env <- Hep Hrs Hrole.
    by apply (bearer_passes_gates token claims db e user req ep rs).
  - intros payload now' <- Hv. rewrite login_unfold. cbn zeta.
    rewrite Hu, Hv. unfold dict_get_default. rewrite Hactive. reflexivity.
  - intros payload now' db' user' Hu' Hnone Hv Hrole. rewrite login_unfold. cbn zeta.
    rewrite Hu', Hv. unfold dict_get_default at 1. rewrite Hnone. cbn [default truthy].
    rewrite create_token_ok; [reflexivity| |].
    + unfold login_claims. apply map_Forall_insert_2; [reflexivity|].
      apply map_Forall_singleton. exact Hrole.
    + apply session_claims_lookup. unfold login_claims.
      rewrite !lookup_insert_ne by discriminate.
      rewrite !lookup_singleton_ne by discriminate. auto.
Qed.
End sessions.

(** ** Signup: uniqueness, the stored record, and the trusted role *)

Section signup_properties.
Context `{PyBuiltins} `{Passlib} `{PyJWT} `{OsEnviron}.


Lemma signup_inv (payload : SignupRequest.t) (env : Env) (db db1 : store)
      (r : AuthResponse.t) :
  signup payload env db = (Ok r, db1) →
  ∃ h,
    user_by_email db (lower (SignupRequest.email payload)) = None
    ∧ hash_password (env_salt env) (SignupRequest.password payload) = Ok h
    ∧ r = AuthResponse.make
            (issued_token (signup_claims (lower (SignupRequest.email payload))
                                         (SignupRequest.role payload))
                          60 (env_clock env 2))
            (returned_user payload env)
    ∧ db1 = store_after_signup payload env h db.
Proof.
  rewrite signup_unfold. cbn zeta.
  destruct (user_by_email db _) as [u|]; [discriminate|].
  destruct (hash_password _ _) as [h| |]; [|discriminate..].
  intros [= <- <-]. by exists h.
Qed.

Lemma user_by_email_after_signup (payload : SignupRequest.t) (env : Env) (h : string)
      (db : store) :
  user_by_email db (lower (SignupRequest.email payload)) = None →
  user_by_email (store_after_signup payload env h db) (lower (SignupRequest.email payload))
  = Some (stored_user payload env h).
Proof.
  intros Hnone. unfold user_by_email, store_after_signup.
  rewrite collection_insert_eq. rewrite find_snoc by exact Hnone.
  rewrite bool_decide_eq_true_2 by reflexivity. reflexivity.
Qed.

Lemma signup_store (payload : SignupRequest.t) (env : Env) (db : store) :
  (signup payload env db).2 = db
  ∨ ∃ h, (signup payload env db).2 = store_after_signup payload env h db.
Proof.
  rewrite signup_unfold. cbn zeta.
  destruct (user_by_email db _); [by left|].
  destruct (hash_password _ _) as [h| |]; [right; by exists h | by left..].
Qed.


Lemma users_have_ids_after_signup (payload : SignupRequest.t) (env : Env) (h : string)
      (db : store) :
  users_have_ids db → users_have_ids (store_after_signup payload env h db).
Proof.
  intros Hinv d Hin. unfold store_after_signup in Hin.
  rewrite collection_insert_eq in Hin.
  apply elem_of_app in Hin as [Hin | Hin].
  - by apply Hinv.
  - apply list_elem_of_singleton in Hin. subst d. by eexists.
Qed.

End signup_properties.

Section trusted_role_and_sanitization.
Context `{PyBuiltins} `{Passlib} `{PyJWT} `{OsEnviron}.

Lemma decode_signup_token (email role : string) (t now : Z) :
  now < expiry 60 t * 1000000 →
  decode_token (issued_token (signup_claims email role) 60 t) now
  = Ok (issued_claims (signup_claims email role) 60 t).
Proof.
  intros Hnow. rewrite decode_token_issued.
  - destruct (Z.leb_spec (expiry 60 t * 1000000) now); [lia|]. reflexivity.
  - unfold signup_claims. apply map_Forall_insert_2; [reflexivity|].
    apply map_Forall_singleton. reflexivity.
  - apply session_claims_lookup. unfold signup_claims.
    rewrite !lookup_insert_ne by discriminate.
    rewrite !lookup_singleton_ne by discriminate. auto.
Qed.

(** C7.  Whatever string the signup body gives as role, in the
    enumeration or not, a signup that is not a duplicate (the hasher
    having returned a digest) stores it, returns it and signs it into the
    token unchanged.  Presented as bearer token before it expires, that
    token passes every gate whose allowed set holds the role; with the
    role "admin" it passes the gate of the admin overview. *)
Theorem signup_trusts_role (payload : SignupRequest.t) (env : Env) (db : store)
        (h : string) :
  let email := lower (SignupRequest.email payload) in
  let role := SignupRequest.role payload in
  user_by_email db email = None →
  hash_password (env_salt env) (SignupRequest.password payload) = Ok h →
  ∃ r db1,
    signup payload env db = (Ok r, db1)
    ∧ AuthResponse.user r !! "role" = Some (VStr role)
    ∧ (∃ stored, user_by_email db1 email = Some stored
                 ∧ stored !! "role" = Some (VStr role))
    ∧ (∀ now, now < expiry 60 (env_clock env 2) * 1000000 →
         ∃ claims, decode_token (AuthResponse.access_token r) now = Ok claims
                   ∧ claims !! "role" = Some (VStr role))
    ∧ (∀ req ep rs env1,
         env_clock env1 0 < expiry 60 (env_clock env 2) * 1000000 →
         endpoint_of req = Some ep → allowed_roles ep = Some rs → role ∈ rs →
         is_ok (app req (Some ("Bearer " +:+ AuthResponse.access_token r)) env1 db1).1
         = true)
    ∧ (role = "admin" →
       ∀ env1,
         env_clock env1 0 < expiry 60 (env_clock env 2) * 1000000 →
         is_ok (app GET_admin_overview
                    (Some ("Bearer " +:+ AuthResponse.access_token r)) env1 db1).1
         = true).
Proof.
  intros email role Hu Hh.
  exists (AuthResponse.make (issued_token (signup_claims email role) 60 (env_clock env 2))
                            (returned_user payload env)),
         (store_after_signup payload env h db).
  assert (Hgate : ∀ req ep rs env1,
    env_clock env1 0 < expiry 60 (env_clock env 2) * 1000000 →
    endpoint_of req = Some ep → allowed_roles ep = Some rs → role ∈ rs →
    is_ok (app req (Some ("Bearer " +:+ issued_token (signup_claims email role) 60
                                                      (env_clock env 2)))
               env1 (store_after_signup payload env h db)).1 = true).
  { intros req ep rs env1 Hnow Hep Hrs Hin.
    apply (bearer_passes_gates _ (issued_claims (signup_claims email role) 60 (env_clock env 2))
             _ email (stored_user payload env h) req ep rs).
    - apply issued_token_nonempty.
    - by apply decode_signup_token.
    - reflexivity.
    - by apply user_by_email_after_signup.
    - exact Hep.
    - exact Hrs.
    - exists role. split; [exact Hin | reflexivity]. }
  split; [|split; [|split; [|split; [|split]]]].
  - rewrite signup_unfold. cbn zeta. fold email role. rewrite Hu, Hh. reflexivity.
  - reflexivity.
  - exists (stored_user payload env h). split; [|reflexivity].
    by apply user_by_email_after_signup.
  - intros now Hnow. eexists. split; [by apply decode_signup_token | reflexivity].
  - exact Hgate.
  - intros Hadmin env1 Hnow.
    apply (Hgate GET_admin_overview AdminOverview ["admin"] env1 Hnow);
      [reflexivity..|]. rewrite Hadmin. apply list_elem_of_singleton. reflexivity.
Qed.

Lemma login_inv (payload : LoginRequest.t) (now : Z) (db db1 : store)
      (r : AuthResponse.t) :
  login payload now db = (Ok r, db1) →
  db1 = db
  ∧ ∃ stored, stored ∈ collection db "user"
              ∧ AuthResponse.user r = sanitize stored.
Proof.
  rewrite login_unfold. cbn zeta.
  destruct (user_by_email db _) as [user|] eqn:Hu; [|discriminate].
  destruct (verify_password _ _) as [[]| |]; try discriminate.
  destruct (truthy _); [|discriminate].
  destruct (create_token _ _ _); [|discriminate..].
  intros [= <- <-]. split; [reflexivity|]. exists user.
  split; [|reflexivity]. by apply user_by_email_Some in Hu as [Hin _].
Qed.

Lemma get_current_user_inv (authorization : option string) (now : Z) (db db1 : store)
      (u : dict) :
  get_current_user authorization now db = (Ok u, db1) →
  db1 = db ∧ ∃ stored, stored ∈ collection db "user" ∧ u = sanitize stored.
Proof.
  destruct authorization as [a|]; [|discriminate].
  destruct (decide (a = EmptyString)) as [->|Ha]; [discriminate|].
  destruct (partition " " a) as [[scheme sep] token] eqn:Hp.
  rewrite (get_current_user_present _ _ _ _ _ _ Ha Hp).
  destruct (_ || _); [discriminate|].
  destruct (decode_token _ _) as [claims| |]; [|discriminate..].
  destruct (List.find _ _) as [d|] eqn:Hf; [|discriminate].
  apply List.find_some in Hf as [Hin _]. apply list_elem_of_In in Hin.
  unfold if_truthy. destruct (bool_decide _); [discriminate|].
  intros [= <- <-]. split; [reflexivity|]. by exists d.
Qed.

(** C8.  In a store whose user documents carry an [_id], as every
    document the store has inserted does: the user that [signup], [login]
    and [get_current_user] return has no [password_hash] field and a
    string under [_id]; [login] and [get_current_user] return the
    sanitized view of a stored record and leave the store exactly as it
    was, and the record [signup] has stored keeps its digest. *)
Theorem sanitized_views (db : store) :
  users_have_ids db →
  (∀ payload env r db1,
     signup payload env db = (Ok r, db1) →
     AuthResponse.user r !! "password_hash" = None
     ∧ (∃ s, AuthResponse.user r !! "_id" = Some (VStr s))
     ∧ ∃ stored h,
         collection db1 "user" = (collection db "user" ++ [stored])%list
         ∧ stored !! "password_hash" = Some (VStr h))
  ∧ (∀ payload now r db1,
       login payload now db = (Ok r, db1) →
       db1 = db
       ∧ AuthResponse.user r !! "password_hash" = None
       ∧ (∃ s, AuthResponse.user r !! "_id" = Some (VStr s))
       ∧ ∃ stored, stored ∈ collection db "user"
                   ∧ AuthResponse.user r = sanitize stored)
  ∧ (∀ authorization now u db1,
       get_current_user authorization now db = (Ok u, db1) →
       db1 = db
       ∧ u !! "password_hash" = None
       ∧ (∃ s, u !! "_id" = Some (VStr s))
       ∧ ∃ stored, stored ∈ collection db "user" ∧ u = sanitize stored).
Proof.
  intros Hids. split; [|split].
  - intros payload env r db1 Hs.
    apply signup_inv in Hs as (h & Hu & Hh & -> & ->).
    split; [reflexivity|]. split; [by eexists|].
    exists (stored_user payload env h), h. split; [|reflexivity].
    unfold store_after_signup. apply collection_insert_eq.
  - intros payload now r db1 Hl.
    apply login_inv in Hl as (-> & stored & Hin & Hr).
    split; [reflexivity|]. rewrite Hr.
    split; [apply sanitize_password_hash|].
    split; [|by exists stored].
    rewrite sanitize_id. destruct (Hids stored Hin) as [v ->]. by eexists.
  - intros authorization now u db1 Hg.
    apply get_current_user_inv in Hg as (-> & stored & Hin & ->).
    split; [reflexivity|].
    split; [apply sanitize_password_hash|].
    split; [|by exists stored].
    rewrite sanitize_id. destruct (Hids stored Hin) as [v ->]. by eexists.
Qed.
End trusted_role_and_sanitization.

(** ** Reachable stores *)

Section reachable_stores.
Context `{PyBuiltins} `{Passlib} `{PyJWT} `{OsEnviron}.

Lemma create_document_users (name : string) (doc : dict) (oid : string) (db : store) :
  name ≠ "user" →
  collection (create_document name doc oid db).2 "user" = collection db "user".
Proof.
  intros Hne. unfold create_document, mbind, M_bind, insert_one. cbn [snd mret M_ret].
  by apply collection_insert_ne.
Qed.

Lemma login_readonly (payload : LoginRequest.t) (now : Z) (db : store) :
  (login payload now db).2 = db.
Proof.
  rewrite login_unfold. cbn zeta.
  destruct (user_by_email db _); [|reflexivity].
  destruct (verify_password _ _) as [[]| |]; try reflexivity.
  destruct (truthy _); [|reflexivity]. by destruct (create_token _ _ _).
Qed.

Ltac unchanged := intros [= <- <-]; left; reflexivity.

Ltac gated :=
  match goal with
  | |- context [if negb ?b then _ else _] => destruct b; cbn [negb]; [|unchanged]
  end.

Ltac inserting :=
  unfold mbind at 1, M_bind;
  match goal with
  | |- context [create_document ?name ?doc ?oid ?db] =>
      pose proof (create_document_users name doc oid db ltac:(discriminate)) as Hc;
      destruct (create_document name doc oid db) as [[id| |] db2]; cbn [snd] in Hc;
      intros [= <- <-]; left; exact Hc
  end.

(** Only [signup] writes to the user collection, and it appends the
    record it stores. *)
Lemma app_users (req : request) (authorization : option string) (env : Env) (db : store) :
  collection (app req authorization env db).2 "user" = collection db "user"
  ∨ ∃ payload h,
      collection (app req authorization env db).2 "user"
      = (collection db "user" ++ [stored_user payload env h])%list.
Proof.
  pose proof (get_current_user_readonly authorization (env_clock env 0) db) as Hro.
  destruct (app req authorization env db) as [o db1] eqn:Happ. cbn [snd].
  revert Happ.
  destruct req as [p|p| |p| |p| |p| |p|p| |p|];
    unfold app, mbind at 1, M_bind;
    try (destruct (get_current_user authorization (env_clock env 0) db) as [[user| |] db0];
         cbn [snd] in Hro; subst db0; [|unchanged..]).
  - pose proof (signup_store p env db) as Hs.
    destruct (signup p env db) as [[r| |] db2]; cbn [snd] in Hs; intros [= <- <-];
      (destruct Hs as [-> | [h ->]];
       [left; reflexivity
       |right; exists p, h; unfold store_after_signup; apply collection_insert_eq]).
  - pose proof (login_readonly p (env_clock env 0) db) as Hl.
    destruct (login p (env_clock env 0) db) as [[r| |] db2]; cbn [snd] in Hl;
      subst db2; unchanged.
  - unchanged.
  - unfold mbind at 1, M_bind, create_product. gated. inserting.
  - unfold mbind at 1, M_bind, my_products. gated. unchanged.
  - unfold mbind at 1, M_bind, create_requirement. gated. inserting.
  - unfold mbind at 1, M_bind, my_requirements. gated. unchanged.
  - unfold mbind at 1, M_bind, create_project. gated. inserting.
  - unchanged.
  - unfold mbind at 1, M_bind, invest. gated. inserting.
  - unfold mbind at 1, M_bind, create_job. gated. inserting.
  - unchanged.
  - unfold mbind at 1, M_bind, apply_job. gated. inserting.
  - unfold mbind at 1, M_bind, admin_overview. gated. unchanged.
Qed.

(** Every reachable store has its emails in lower case and an [_id] on
    every user document. *)
Lemma reachable_invariants (db : store) :
  reachable db → emails_lowercase db ∧ users_have_ids db.
Proof.
  induction 1 as [|req authorization env db Hr [IHe IHi]].
  - split.
    + intros d e Hin. by apply elem_of_nil in Hin.
    + intros d Hin. by apply elem_of_nil in Hin.
  - destruct (app_users req authorization env db) as [Heq | (p & h & Heq)].
    + split.
      * intros d e. rewrite Heq. apply IHe.
      * intros d. rewrite Heq. apply IHi.
    + split.
      * intros d e. rewrite Heq. intros Hin He.
        apply elem_of_app in Hin as [Hin | Hin]; [by apply (IHe d)|].
        apply list_elem_of_singleton in Hin. subst d.
        assert (Hs : stored_user p env h !! "email"
                     = Some (VStr (lower (SignupRequest.email p)))) by reflexivity.
        rewrite Hs in He. injection He as <-. apply lower_idempotent.
      * intros d. rewrite Heq. intros Hin.
        apply elem_of_app in Hin as [Hin | Hin]; [by apply IHi|].
        apply list_elem_of_singleton in Hin. subst d. by eexists.
Qed.
End reachable_stores.

(** * Worked instances on the reference libraries *)

Import Demo.

(** The instant of every clock reading: 14 November 2023, 22:13:20.123456
    UTC. *)
Definition t0 : Z := 1700000000123456.

Definition env_at (oid : string) : Env :=
  {| env_clock := λ _, t0; env_salt := "abcdefghijklmnopqrstuv"; env_oid := oid |}.

Definition alice : SignupRequest.t :=
  {| SignupRequest.name := "Alice"; SignupRequest.email := "Alice@Example.com";
     SignupRequest.password := "pw123"; SignupRequest.role := "admin" |}.

Definition eve : SignupRequest.t :=
  {| SignupRequest.name := "Eve"; SignupRequest.email := "eve@example.com";
     SignupRequest.password := "s3cret"; SignupRequest.role := "employee" |}.

Definition alice_env : Env := env_at "65a000000000000000000001".
Definition eve_env : Env := env_at "65a000000000000000000002".

Definition alice_digest : string := "$2b$pw123$abcdefghijklmnopqrstuv".
Definition eve_digest : string := "$2b$s3cret$abcdefghijklmnopqrstuv".

(** The store after Alice, and after Alice and Eve, have signed up. *)
Definition db_alice : store := store_after_signup alice alice_env alice_digest ∅.
Definition db_both : store := store_after_signup eve eve_env eve_digest db_alice.

Definition alice_token : string :=
  issued_token (signup_claims "alice@example.com" "admin") 60 t0.
Definition eve_token : string :=
  issued_token (signup_claims "eve@example.com" "employee") 60 t0.

Definition widget : ProductPayload.t :=
  {| ProductPayload.title := "Widget"; ProductPayload.specs := None;
     ProductPayload.category := None; ProductPayload.unit_price := None;
     ProductPayload.images := [] |}.

Definition application : ApplyPayload.t :=
  {| ApplyPayload.job_id := "65a000000000000000000009"; ApplyPayload.resume_url := None |}.

Lemma t0_unexpired : t0 < expiry 60 t0 * 1000000.
Proof. reflexivity. Qed.

Lemma alice_fresh : user_by_email ∅ "alice@example.com" = None.
Proof. reflexivity. Qed.

Lemma eve_fresh : user_by_email db_alice "eve@example.com" = None.
Proof. reflexivity. Qed.

Lemma alice_stored :
  user_by_email db_both "alice@example.com" = Some (stored_user alice alice_env alice_digest).
Proof. reflexivity. Qed.

Lemma eve_stored :
  user_by_email db_both "eve@example.com" = Some (stored_user eve eve_env eve_digest).
Proof. reflexivity. Qed.

Example signup_alice :
  signup alice alice_env ∅
  = (Ok (AuthResponse.make alice_token (returned_user alice alice_env)), db_alice).
Proof. rewrite signup_unfold. reflexivity. Qed.

Example signup_eve :
  signup eve eve_env db_alice
  = (Ok (AuthResponse.make eve_token (returned_user eve eve_env)), db_both).
Proof. rewrite signup_unfold. reflexivity. Qed.

Example resolve_eve :
  get_current_user (Some ("Bearer " +:+ eve_token)) t0 db_both
  = (Ok (sanitize (stored_user eve eve_env eve_digest)), db_both).
Proof.
  apply (resolve_bearer eve_token
           (issued_claims (signup_claims "eve@example.com" "employee") 60 t0)
           t0 db_both "eve@example.com").
  - apply issued_token_nonempty.
  - apply decode_signup_token, t0_unexpired.
  - reflexivity.
  - apply eve_stored.
Qed.

(** The scheme is matched without regard to letter case. *)
Example resolve_alice :
  get_current_user (Some ("bEaReR " +:+ alice_token)) t0 db_both
  = (Ok (sanitize (stored_user alice alice_env alice_digest)), db_both).
Proof.
  rewrite (get_current_user_present _ "bEaReR" " " alice_token)
    by (discriminate || reflexivity).
  change (lower "bEaReR") with "bearer". rewrite String.eqb_refl. unfold alice_token.
  rewrite (proj2 (String.eqb_neq _ _) (issued_token_nonempty _ _ _)).
  rewrite decode_signup_token by apply t0_unexpired.
  reflexivity.
Qed.

(** An employee is refused the creation of a product listing, an admin may
    apply to a job, and the listing of projects needs no header. *)
Lemma rbac_matrix_witness :
  status_of (app (POST_vendor_products widget) (Some ("Bearer " +:+ eve_token))
                 eve_env db_both).1 = Some 403
  ∧ is_ok (app (POST_job_apply application) (Some ("bEaReR " +:+ alice_token))
               alice_env db_both).1 = true
  ∧ is_ok (app GET_investor_projects None alice_env db_both).1 = true.
Proof.
  split; [|split].
  - refine (proj1 (proj2 (rbac_matrix (POST_vendor_products widget) CreateProductListing
                            (Some ("Bearer " +:+ eve_token)) eve_env db_both eq_refl
                            (sanitize (stored_user eve eve_env eve_digest)) _) _)).
    + exact (f_equal fst resolve_eve).
    + intros (r & Hin & Hr).
      apply list_elem_of_singleton in Hin. subst r. discriminate Hr.
  - refine (proj2 (proj1 (rbac_matrix (POST_job_apply application) ApplyToJob
                            (Some ("bEaReR " +:+ alice_token)) alice_env db_both eq_refl
                            (sanitize (stored_user alice alice_env alice_digest)) _)) _).
    + exact (f_equal fst resolve_alice).
    + exists "admin". split; [|reflexivity].
      apply list_elem_of_further, list_elem_of_here.
  - exact (proj2 (rbac_matrix GET_investor_projects ListInvestmentProjects
                    (Some "anything") alice_env db_both eq_refl)).
Defined.


Lemma db_both_ids : users_have_ids db_both.
Proof.
  apply users_have_ids_after_signup, users_have_ids_after_signup.
  intros d Hin. by apply elem_of_nil in Hin.
Qed.

(** A token for a subject that never signed up. *)
Definition ghost_token : string :=
  issued_token (signup_claims "ghost@example.com" "admin") 60 t0.

(** The resolver on a header in another letter case, on no header, on
    another scheme, and on a token whose subject is not in the store. *)
Lemma get_current_user_cases_witness :
  (∃ u, get_current_user (Some ("bEaReR " +:+ alice_token)) t0 db_both = (Ok u, db_both)
        ∧ u !! "password_hash" = None
        ∧ u !! "_id" = Some (VStr "65a000000000000000000001")
        ∧ u !! "email" = Some (VStr "alice@example.com")
        ∧ u !! "role" = Some (VStr "admin"))
  ∧ stored_user alice alice_env alice_digest !! "password_hash"
    = Some (VStr alice_digest)
  ∧ get_current_user None t0 db_both
    = (HTTPException 401 "Missing Authorization header", db_both)
  ∧ get_current_user (Some "Basic YWxpY2U6cHc=") t0 db_both
    = (HTTPException 401 "Invalid auth header", db_both)
  ∧ get_current_user (Some ("Bearer " +:+ ghost_token)) t0 db_both
    = (HTTPException 401 "User not found", db_both).
Proof.
  split; [|split; [reflexivity|split; [|split]]].
  - assert (Hu : ∃ u,
        get_current_user (Some ("bEaReR " +:+ alice_token)) t0 db_both = (Ok u, db_both)
        ∧ u = sanitize (stored_user alice alice_env alice_digest)
        ∧ u !! "password_hash" = None
        ∧ (∀ v, stored_user alice alice_env alice_digest !! "_id" = Some v →
                u !! "_id" = Some (VStr (py_str v)))
        ∧ (stored_user alice alice_env alice_digest !! "_id" = None →
           u !! "_id" = Some VNone)
        ∧ (∀ k, k ≠ "_id" → k ≠ "password_hash" →
                u !! k = stored_user alice alice_env alice_digest !! k)).
    { refine (proj2 (proj2 (proj2 (proj1 (proj2
        (get_current_user_cases (Some ("bEaReR " +:+ alice_token)) t0 db_both))
        ("bEaReR " +:+ alice_token) "bEaReR" " " alice_token eq_refl _ eq_refl) eq_refl _)
        (issued_claims (signup_claims "alice@example.com" "admin") 60 t0)
        "alice@example.com" _ eq_refl) _ alice_stored).
      - discriminate.
      - apply issued_token_nonempty.
      - apply decode_signup_token, t0_unexpired. }
    destruct Hu as (u & Hg & _ & Hpw & Hid & _ & Hk).
    exists u. split; [exact Hg|]. split; [exact Hpw|].
    split; [exact (Hid (VObjectId "65a000000000000000000001") eq_refl)|].
    split; [rewrite (Hk "email") by discriminate|rewrite (Hk "role") by discriminate];
      reflexivity.
  - exact (proj1 (get_current_user_cases None t0 db_both) (or_introl eq_refl)).
  - refine (proj1 (proj1 (proj2
      (get_current_user_cases (Some "Basic YWxpY2U6cHc=") t0 db_both))
      "Basic YWxpY2U6cHc=" "Basic" " " "YWxpY2U6cHc=" eq_refl _ eq_refl) (or_introl _)).
    + discriminate.
    + discriminate.
  - refine (proj1 (proj2 (proj2 (proj1 (proj2
      (get_current_user_cases (Some ("Bearer " +:+ ghost_token)) t0 db_both))
      ("Bearer " +:+ ghost_token) "Bearer" " " ghost_token eq_refl _ eq_refl) eq_refl _)
      (issued_claims (signup_claims "ghost@example.com" "admin") 60 t0)
      "ghost@example.com" _ eq_refl) eq_refl).
    + discriminate.
    + apply issued_token_nonempty.
    + apply decode_signup_token, t0_unexpired.
Defined.

Definition alice_shouting : SignupRequest.t :=
  {| SignupRequest.name := "Alice again"; SignupRequest.email := "ALICE@EXAMPLE.COM";
     SignupRequest.password := "other"; SignupRequest.role := "buyer" |}.




Example lower_agnes : lower "ÀB@example.com" = "àb@example.com".
Proof. reflexivity. Qed.



Definition alice_login : LoginRequest.t :=
  {| LoginRequest.email := "Alice@example.com"; LoginRequest.password := "pw123" |}.

Definition alice_wrong : LoginRequest.t :=
  {| LoginRequest.email := "alice@example.com"; LoginRequest.password := "pw124" |}.

(** Alice logs in with her password, and is refused with another. *)
Lemma login_cases_witness :
  (∃ r, (login alice_login t0 db_both).1 = Ok r
        ∧ AuthResponse.access_token r
          = issued_token (login_claims "alice@example.com"
                            (stored_user alice alice_env alice_digest)) 60 t0
        ∧ AuthResponse.token_type r = "bearer"
        ∧ AuthResponse.user r !! "password_hash" = None
        ∧ AuthResponse.user r !! "_id" = Some (VStr "65a000000000000000000001")
        ∧ AuthResponse.user r !! "email" = Some (VStr "alice@example.com"))
  ∧ (login alice_wrong t0 db_both).1 = HTTPException 401 "Invalid credentials".
Proof.
  split.
  - assert (Hex : ∃ r,
        (login alice_login t0 db_both).1 = Ok r
        ∧ AuthResponse.access_token r
          = issued_token (login_claims (lower (LoginRequest.email alice_login))
                            (stored_user alice alice_env alice_digest)) 60 t0
        ∧ AuthResponse.token_type r = "bearer"
        ∧ AuthResponse.user r = sanitize (stored_user alice alice_env alice_digest)
        ∧ AuthResponse.user r !! "password_hash" = None
        ∧ (∀ v, stored_user alice alice_env alice_digest !! "_id" = Some v →
                AuthResponse.user r !! "_id" = Some (VStr (py_str v)))
        ∧ (∀ k, k ≠ "_id" → k ≠ "password_hash" →
                AuthResponse.user r !! k = stored_user alice alice_env alice_digest !! k))
      by exact (proj2 (proj2 (proj1 (proj2 (login_cases alice_login t0 db_both))
                  (stored_user alice alice_env alice_digest) alice_stored eq_refl))
                  eq_refl eq_refl).
    destruct Hex as (r & Hr & Htok & Hty & _ & Hpw & Hid & Hk).
    exists r. split; [exact Hr|]. split; [exact Htok|]. split; [exact Hty|].
    split; [exact Hpw|].
    split; [exact (Hid (VObjectId "65a000000000000000000001") eq_refl)|].
    rewrite (Hk "email") by discriminate. reflexivity.
  - apply (proj1 (login_cases alice_wrong t0 db_both)). right.
    exists (stored_user alice alice_env alice_digest). split; reflexivity.
Defined.

(** Alice's token, decoded at the instant of issue. *)
Lemma token_roundtrip_witness :
  t0 < expiry 60 t0 * 1000000
  ∧ ∃ token,
      create_token {[ "sub" := VStr "alice@example.com"; "role" := VStr "admin" ]} 60 t0
      = Ok token
      ∧ decode_token token t0
        = Ok {[ "sub" := VStr "alice@example.com"; "role" := VStr "admin";
                "exp" := VInt 1700003600 ]}.
Proof.
  split; [exact t0_unexpired|].
  exact (proj1 (token_roundtrip "alice@example.com" "admin" 60 t0 t0 t0_unexpired)).
Defined.

(** Against C5 as worded: the claims decoded from a fresh token are not the
    subject and the role alone, they carry [exp] as well. *)
Lemma roundtrip_returns_exp :
  ∃ token,
    create_token {[ "sub" := VStr "alice@example.com"; "role" := VStr "admin" ]} 60 t0
    = Ok token
    ∧ decode_token token t0
      ≠ Ok {[ "sub" := VStr "alice@example.com"; "role" := VStr "admin" ]}.
Proof.
  exists alice_token. split.
  - apply signup_claims_ok.
  - unfold alice_token. rewrite decode_signup_token by apply t0_unexpired.
    intros Heq.
    apply (f_equal (λ o, match o with Ok d => d !! "exp" | _ => None end)) in Heq.
    discriminate Heq.
Qed.

Lemma alice_token_parses :
  jws_parse alice_token
  = Some (jws_signing_input (issued_claims (signup_claims "alice@example.com" "admin") 60 t0),
          "HS256",
          issued_claims (signup_claims "alice@example.com" "admin") 60 t0,
          hmac_sha256 JWT_SECRET
            (jws_signing_input (issued_claims (signup_claims "alice@example.com" "admin")
                                              60 t0))).
Proof. apply parse_compact. Qed.

(** Alice's token is accepted one second before its expiry and rejected
    one second after it; a string that is no token is invalid. *)
Lemma decode_token_failures_witness :
  decode_token alice_token (1700003600000000 - 1000000)
  = Ok (issued_claims (signup_claims "alice@example.com" "admin") 60 t0)
  ∧ decode_token alice_token (1700003600000000 + 1000000)
    = HTTPException 401 "Token expired"
  ∧ decode_token "not.a.token" t0 = HTTPException 401 "Invalid token".
Proof.
  split; [|split].
  - refine (proj1 (proj2 (proj2 (proj1 (proj2
      (decode_token_failures alice_token (1700003600000000 - 1000000)))
      _ _ _ _ alice_token_parses) 1700003600 eq_refl eq_refl _ eq_refl)) _).
    + apply session_claims_lookup. repeat split; reflexivity.
    + reflexivity.
  - refine (proj1 (proj2 (proj1 (proj2
      (decode_token_failures alice_token (1700003600000000 + 1000000)))
      _ _ _ _ alice_token_parses) 1700003600 eq_refl eq_refl _ eq_refl) _).
    + apply session_claims_lookup. repeat split; reflexivity.
    + discriminate.
  - exact (proj1 (decode_token_failures "not.a.token" t0) eq_refl).
Defined.

Lemma alice_hashed : hash_password (env_salt alice_env) "pw123" = Ok alice_digest.
Proof. reflexivity. Qed.

(** Alice asked for the role "admin" at signup, and her token opens the
    admin overview. *)
Lemma signup_trusts_role_witness :
  user_by_email ∅ "alice@example.com" = None
  ∧ hash_password (env_salt alice_env) "pw123" = Ok alice_digest
  ∧ is_ok (app GET_admin_overview (Some ("Bearer " +:+ alice_token)) alice_env db_alice).1
    = true.
Proof.
  split; [exact alice_fresh|]. split; [exact alice_hashed|].
  assert (Hfresh : user_by_email ∅ (lower (SignupRequest.email alice)) = None)
    by exact alice_fresh.
  destruct (signup_trusts_role alice alice_env ∅ alice_digest Hfresh alice_hashed)
    as (r & db1 & Hs & _ & _ & _ & _ & Hadmin).
  rewrite signup_alice in Hs. injection Hs as <- <-.
  exact (Hadmin eq_refl alice_env t0_unexpired).
Defined.

Lemma login_alice :
  login alice_login t0 db_both
  = (Ok (AuthResponse.make
           (issued_token (login_claims "alice@example.com"
                            (stored_user alice alice_env alice_digest)) 60 t0)
           (sanitize (stored_user alice alice_env alice_digest))),
     db_both).
Proof.
  rewrite login_unfold. cbn zeta.
  change (lower (LoginRequest.email alice_login)) with "alice@example.com".
  rewrite alice_stored.
  change (verify_password _ _) with (Ok true : outcome bool).
  cbn match. change (truthy _) with true. cbn match.
  rewrite create_token_ok; [reflexivity| |].
  - unfold login_claims. apply map_Forall_insert_2; [reflexivity|].
    apply map_Forall_singleton. reflexivity.
  - apply session_claims_lookup. repeat split; reflexivity.
Qed.

(** What [login] and the resolver return of Alice has no digest and a
    string id, and the store is as before. *)
Lemma sanitized_views_witness :
  users_have_ids db_both
  ∧ ∃ r, login alice_login t0 db_both = (Ok r, db_both)
         ∧ AuthResponse.user r !! "password_hash" = None
         ∧ ∃ s, AuthResponse.user r !! "_id" = Some (VStr s).
Proof.
  split; [exact db_both_ids|].
  eexists. split; [exact login_alice|].
  destruct (proj1 (proj2 (sanitized_views db_both db_both_ids))
              alice_login t0 _ db_both login_alice) as (_ & Hpw & Hid & _).
  split; [exact Hpw | exact Hid].
Defined.

(** A user record without [password_hash], as [login] may find one. *)
Definition db_no_hash : store :=
  {[ "user" := [delete "password_hash" (stored_user alice alice_env alice_digest)] ]}.

(** Neither the empty string nor a digest of another scheme is answered
    with false. *)
Lemma verify_password_unknown_hash_witness :
  bcrypt_identify "$1$salt$hash" = false
  ∧ verify_password "pw123" (VStr "$1$salt$hash") = Uncaught UnknownHashError
  ∧ verify_password "pw123" (VStr EmptyString) = Uncaught UnknownHashError.
Proof.
  split; [reflexivity|]. split.
  - exact (proj1 (proj2 (proj2 (verify_password_unknown_hash "pw123"))
                    "$1$salt$hash" eq_refl)).
  - exact (proj1 (verify_password_unknown_hash "pw123")).
Defined.

(** Alice's attempt against her record without [password_hash] is not
    answered with 401: the exception escapes. *)
Lemma login_unverifiable_digest_witness :
  user_by_email db_no_hash "alice@example.com"
  = Some (delete "password_hash" (stored_user alice alice_env alice_digest))
  ∧ login alice_login t0 db_no_hash = (Uncaught UnknownHashError, db_no_hash)
  ∧ (login alice_login t0 db_no_hash).1 ≠ HTTPException 401 "Invalid credentials".
Proof.
  assert (Hu : user_by_email db_no_hash (lower (LoginRequest.email alice_login))
               = Some (delete "password_hash" (stored_user alice alice_env alice_digest)))
    by reflexivity.
  split; [exact Hu|].
  exact (login_unverifiable_digest alice_login t0 db_no_hash _ Hu (or_introl eq_refl)).
Defined.

(** Eve's record with [is_active] set to false. *)
Definition eve_deactivated : dict :=
  <["is_active" := VBool false]> (stored_user eve eve_env eve_digest).

Definition db_deactivated : store := {[ "user" := [eve_deactivated] ]}.

Definition eve_login : LoginRequest.t :=
  {| LoginRequest.email := "eve@example.com"; LoginRequest.password := "s3cret" |}.

(** Deactivated, Eve is still resolved from the token she holds and may
    still apply to a job, while her login is refused. *)
Lemma resolver_ignores_is_active_witness :
  get_current_user (Some ("Bearer " +:+ eve_token)) t0 db_deactivated
  = (Ok (sanitize eve_deactivated), db_deactivated)
  ∧ is_ok (app (POST_job_apply application) (Some ("Bearer " +:+ eve_token))
               eve_env db_deactivated).1 = true
  ∧ (login eve_login t0 db_deactivated).1 = HTTPException 403 "User deactivated".
Proof.
  assert (Hd : decode_token eve_token t0
               = Ok (issued_claims (signup_claims "eve@example.com" "employee") 60 t0))
    by apply decode_signup_token, t0_unexpired.
  destruct (resolver_ignores_is_active eve_token _ t0 db_deactivated "eve@example.com"
              eve_deactivated (issued_token_nonempty _ _ _) Hd eq_refl eq_refl eq_refl)
    as (Hres & Hgate & Hlogin & _).
  split; [exact Hres|]. split.
  - apply (Hgate (POST_job_apply application) ApplyToJob ["employee"; "admin"] eve_env);
      [reflexivity..|].
    exists "employee". split; [apply list_elem_of_here | reflexivity].
  - exact (Hlogin eve_login t0 eq_refl eq_refl).
Defined.

(** * Further properties of the code *)

(** ** The [Authorization] header *)

(** [partition] splits without losing anything: the three parts put
    together are the string, and the middle part is the separator when it
    occurs. *)
Lemma partition_join (sep : ascii) (s h m t : string) :
  partition sep s = (h, m, t) →
  s = h +:+ m +:+ t ∧ (m = EmptyString ∨ m = String sep EmptyString).
Proof.
  revert h m t. induction s as [|c r IH]; intros h m t; simpl.
  - intros [= <- <- <-]. split; [reflexivity | by left].
  - destruct (Ascii.eqb_spec c sep) as [->|Hc].
    + intros [= <- <- <-]. split; [reflexivity | by right].
    + destruct (partition sep r) as [[h' m'] t'] eqn:Hp.
      intros [= <- <- <-]. destruct (IH h' m' t' eq_refl) as [-> Hm].
      split; [reflexivity | exact Hm].
Qed.

(** When the separator does not occur, nothing comes after it. *)
Lemma partition_absent (sep : ascii) (s h t : string) :
  partition sep s = (h, EmptyString, t) → t = EmptyString.
Proof.
  revert h t. induction s as [|c r IH]; intros h t; simpl.
  - by intros [= <- <-].
  - destruct (Ascii.eqb c sep); [discriminate|].
    destruct (partition sep r) as [[h' m'] t'] eqn:Hp.
    intros [= <- -> <-]. by eapply IH.
Qed.

(** A scheme that is "bearer" in some letter case holds no space, so the
    first space of the header is the one after it. *)
Lemma partition_whole (w : string) :
  partition " " w = (w, EmptyString, EmptyString) → has_space w = false.
Proof.
  induction w as [|c r IH]; simpl; [reflexivity|].
  destruct (Ascii.eqb c " "); [discriminate|].
  destruct (partition " " r) as [[h m] t] eqn:Hp.
  intros [= -> -> ->]. exact (IH eq_refl).
Qed.

Lemma partition_first_space (s token : string) :
  has_space s = false →
  partition " " (s +:+ String " " token) = (s, String " " EmptyString, token).
Proof.
  induction s as [|c r IH]; simpl; [reflexivity|].
  destruct (Ascii.eqb c " "); [discriminate|].
  intros Hr. rewrite (IH Hr). reflexivity.
Qed.

Lemma partition_scheme `{PyBuiltins} (s w token : string) :
  lower s = w → partition " " w = (w, EmptyString, EmptyString) →
  partition " " (s +:+ String " " token) = (s, String " " EmptyString, token).
Proof.
  intros Hl Hw. apply partition_first_space.
  destruct (has_space s) eqn:Hs; [|reflexivity].
  apply lower_space in Hs. rewrite Hl, (partition_whole w Hw) in Hs. discriminate Hs.
Qed.

Section header_properties.
Context `{PyBuiltins} `{PyJWT} `{OsEnviron}.

(** The five failure details of the resolver. *)
Definition resolver_details : list string :=
  ["Missing Authorization header"; "Invalid auth header"; "Token expired";
   "Invalid token"; "User not found"].

(** X1.  The resolver answers a failure with 401 and one of its five
    details: whatever the header, the instant and the store, an
    [HTTPException] it raises has status 401 and as detail one of the
    five, and the store is as it was. *)
Theorem resolver_failures (authorization : option string) (now : Z) (db : store)
        (c : Z) (d : string) :
  (get_current_user authorization now db).1 = HTTPException c d →
  c = 401 ∧ d ∈ resolver_details ∧ (get_current_user authorization now db).2 = db.
Proof.
  intros Hr.
  enough (c = 401 ∧ d ∈ resolver_details) as [Hc Hd]
    by (split; [exact Hc | split; [exact Hd | apply get_current_user_readonly]]).
  unfold resolver_details.
  destruct authorization as [a|];
    [|injection Hr as <- <-; split; [reflexivity | set_solver]].
  destruct (decide (a = EmptyString)) as [->|Ha];
    [injection Hr as <- <-; split; [reflexivity | set_solver]|].
  destruct (partition " " a) as [[scheme sep] token] eqn:Hp.
  rewrite (get_current_user_present _ _ _ _ _ _ Ha Hp) in Hr.
  destruct (_ || _);
    [injection Hr as <- <-; split; [reflexivity | set_solver]|].
  destruct (decode_token_outcomes token now) as [[claims Hd]|[Hd | Hd]];
    rewrite Hd in Hr.
  - destruct (if_truthy _); [discriminate Hr|].
    injection Hr as <- <-. split; [reflexivity | set_solver].
  - injection Hr as <- <-. split; [reflexivity | set_solver].
  - injection Hr as <- <-. split; [reflexivity | set_solver].
Qed.

(** X2.  The letter case of the scheme does not matter: a header whose
    scheme lower-cases to "bearer" is answered exactly as the same token
    under the scheme spelled "Bearer". *)
Theorem scheme_case_insensitive (scheme token : string) (now : Z) (db : store) :
  lower scheme = "bearer" →
  get_current_user (Some (scheme +:+ String " " token)) now db
  = get_current_user (Some ("Bearer " +:+ token)) now db.
Proof.
  intros Hl.
  assert (Hne : scheme +:+ String " " token ≠ EmptyString).
  { destruct scheme; discriminate. }
  rewrite (get_current_user_present _ scheme " " token _ _ Hne
             (partition_scheme scheme "bearer" token Hl eq_refl)).
  rewrite (get_current_user_present _ "Bearer" " " token) by (discriminate || reflexivity).
  rewrite Hl, (lower_ascii "Bearer") by reflexivity. reflexivity.
Qed.

(** X3.  The resolver is sound: when it returns a user, the header was a
    bearer scheme followed by a token that verifies, the user is the
    sanitized view of a stored record, and if the token's [sub] is a string
    then it is that user's email. *)
Theorem resolved_user_is_subject (authorization : option string) (now : Z)
        (db db1 : store) (u : dict) :
  get_current_user authorization now db = (Ok u, db1) →
  ∃ scheme token claims stored,
    authorization = Some (scheme +:+ " " +:+ token)
    ∧ lower scheme = "bearer"
    ∧ decode_token token now = Ok claims
    ∧ stored ∈ collection db "user"
    ∧ u = sanitize stored
    ∧ ∀ e, claims !! "sub" = Some (VStr e) → u !! "email" = Some (VStr e).
Proof.
  destruct authorization as [a|]; [|discriminate].
  destruct (decide (a = EmptyString)) as [->|Ha]; [discriminate|].
  destruct (partition " " a) as [[scheme sep] token] eqn:Hp.
  rewrite (get_current_user_present _ _ _ _ _ _ Ha Hp).
  destruct (String.eqb_spec (lower scheme) "bearer") as [Hs|]; [|discriminate].
  destruct (String.eqb_spec token EmptyString) as [|Ht]; [discriminate|].
  cbn [negb orb].
  destruct (decode_token token now) as [claims| |] eqn:Hd; [|discriminate..].
  destruct (List.find _ _) as [d|] eqn:Hf; [|discriminate].
  apply List.find_some in Hf as [Hin Hm]. apply list_elem_of_In in Hin.
  unfold if_truthy. destruct (bool_decide _); [discriminate|].
  intros [= <- <-]. exists scheme, token, claims, d.
  destruct (partition_join _ _ _ _ _ Hp) as [-> Hsep].
  destruct Hsep as [-> | ->].
  - exfalso. apply Ht. by eapply partition_absent.
  - repeat (split; [done|]). intros e He.
    rewrite doc_matches_singleton in Hm. unfold dict_get in Hm. rewrite He in Hm.
    cbn [default field_matches] in Hm. apply bool_decide_eq_true in Hm.
    rewrite sanitize_other by discriminate. exact Hm.
Qed.
End header_properties.

(** ** Tokens and sessions *)

Section token_properties.
Context `{PyBuiltins} `{Passlib} `{PyJWT} `{OsEnviron}.

(** A token [create_token] returned is the signed serialization of the data
    with the expiry, and that payload is one [json.dumps] accepts. *)
Lemma create_token_inv (data : dict) (m t : Z) (token : string) :
  session_claims data → create_token data m t = Ok token →
  token = issued_token data m t
  ∧ map_Forall (λ _ v, json_serializable v = true) (issued_claims data m t).
Proof.
  intros Hs. apply session_claims_lookup in Hs as (Hiat & Hnbf & _).
  unfold create_token, jwt_encode. rewrite jwt_prepare_exp by assumption.
  fold (expiry m t). fold (issued_claims data m t).
  destruct (bool_decide _) eqn:Hb; [|discriminate].
  apply bool_decide_eq_true in Hb. intros [= <-]. split; [reflexivity | exact Hb].
Qed.

Lemma decode_token_created (data : dict) (m t now : Z) (token : string) :
  session_claims data → create_token data m t = Ok token →
  decode_token token now
  = if expiry m t * 1000000 <=? now
    then HTTPException 401 "Token expired"
    else Ok (issued_claims data m t).
Proof.
  intros Hs Hc. destruct (create_token_inv data m t token Hs Hc) as [-> Hjson].
  unfold decode_token, jwt_decode, issued_token.
  rewrite jws_parse_compact by exact Hjson.
  rewrite algorithm_allowed, bool_decide_eq_true_2 by reflexivity.
  rewrite String.eqb_refl. cbn [negb].
  rewrite (jwt_validate_exp _ now (expiry m t)).
  - unfold exp_check. by destruct (_ <=? _).
  - by apply session_claims_insert_exp.
  - unfold issued_claims. by rewrite lookup_insert_eq.
Qed.

(** X4.  A token [create_token] returned is accepted, with the data and the
    expiry as claims, at every instant before its expiry second and is
    rejected as expired from that second on.  The expiry is the issue time
    plus the lifetime cut down to a whole second, so the token lives for
    the lifetime less at most one second.  An [exp] the caller put in the
    data is replaced by the computed one. *)
Theorem token_lifetime (data : dict) (m t now : Z) (token : string) :
  session_claims data → create_token data m t = Ok token →
  (decode_token token now = Ok (issued_claims data m t) ↔
   now < expiry m t * 1000000)
  ∧ (decode_token token now = HTTPException 401 "Token expired" ↔
     expiry m t * 1000000 ≤ now)
  ∧ t + m * 60000000 - 1000000 < expiry m t * 1000000 ≤ t + m * 60000000
  ∧ ∀ v, create_token (<["exp" := v]> data) m t = Ok token.
Proof.
  intros Hs Hc. rewrite (decode_token_created data m t now token Hs Hc).
  split; [|split; [|split]].
  - destruct (Z.leb_spec (expiry m t * 1000000) now); split; (discriminate || lia || done).
  - destruct (Z.leb_spec (expiry m t * 1000000) now); split; (discriminate || lia || done).
  - unfold expiry.
    pose proof (Z.mod_pos_bound (t + m * 60000000) 1000000 ltac:(lia)).
    pose proof (Z.div_mod (t + m * 60000000) 1000000 ltac:(lia)). lia.
  - intros v. rewrite <- Hc. unfold create_token. by rewrite insert_insert_eq.
Qed.

(** X5.  The token of a successful login, presented as bearer token before
    it expires, resolves to the very user the login returned, and the store
    is still the one before the login. *)
Theorem login_then_resolve (payload : LoginRequest.t) (t now : Z) (db db1 : store)
        (r : AuthResponse.t) :
  login payload t db = (Ok r, db1) →
  now < expiry 60 t * 1000000 →
  db1 = db
  ∧ get_current_user (Some ("Bearer " +:+ AuthResponse.access_token r)) now db1
    = (Ok (AuthResponse.user r), db1).
Proof.
  rewrite login_unfold. cbn zeta.
  destruct (user_by_email db _) as [user|] eqn:Hu; [|discriminate].
  destruct (verify_password _ _) as [[]| |]; try discriminate.
  destruct (truthy _); [|discriminate].
  destruct (create_token _ _ _) as [token| |] eqn:Hc; [|discriminate..].
  intros [= <- <-] Hnow. split; [reflexivity|].
  assert (Hs : session_claims
                 (login_claims (lower (LoginRequest.email payload)) user)).
  { apply session_claims_lookup. unfold login_claims.
    rewrite !lookup_insert_ne by discriminate.
    rewrite !lookup_singleton_ne by discriminate. auto. }
  cbn [AuthResponse.access_token AuthResponse.user AuthResponse.make].
  apply (resolve_bearer token
           (issued_claims (login_claims (lower (LoginRequest.email payload)) user) 60 t)
           now db (lower (LoginRequest.email payload)) user).
  - destruct (create_token_inv _ _ _ _ Hs Hc) as [-> _]. apply issued_token_nonempty.
  - rewrite (decode_token_created _ _ _ now _ Hs Hc).
    destruct (Z.leb_spec (expiry 60 t * 1000000) now); [lia | reflexivity].
  - reflexivity.
  - exact Hu.
Qed.


End token_properties.

(** ** What a request does to the store *)

(** No two user records hold the same string as email. *)
Definition emails_unique (db : store) : Prop :=
  ∀ i j d1 d2 e,
    collection db "user" !! i = Some d1 → collection db "user" !! j = Some d2 →
    d1 !! "email" = Some (VStr e) → d2 !! "email" = Some (VStr e) → i = j.

Definition is_signup (req : request) : bool :=
  match req with POST_auth_signup _ => true | _ => false end.

(** The routes that declare [Depends(get_current_user)]. *)
Definition depends_on_current_user (req : request) : bool :=
  match req with
  | POST_auth_signup _ | POST_auth_login _ | GET_investor_projects | GET_job_listings => false
  | _ => true
  end.

(** The routes whose handler calls neither [insert_one] nor
    [create_document]. *)
Definition inserts_nothing (req : request) : bool :=
  match req with
  | POST_auth_login _ | GET_auth_me | GET_vendor_products | GET_buyer_requirements
  | GET_investor_projects | GET_job_listings | GET_admin_overview => true
  | _ => false
  end.

Section store_effects.
Context `{PyBuiltins} `{Passlib} `{PyJWT} `{OsEnviron}.

Lemma signup_store_fresh (payload : SignupRequest.t) (env : Env) (db : store) :
  (signup payload env db).2 = db ∧ is_ok (signup payload env db).1 = false
  ∨ ∃ h, user_by_email db (lower (SignupRequest.email payload)) = None
         ∧ hash_password (env_salt env) (SignupRequest.password payload) = Ok h
         ∧ (signup payload env db).2 = store_after_signup payload env h db.
Proof.
  rewrite signup_unfold. cbn zeta.
  destruct (user_by_email db _); [by left|].
  destruct (hash_password _ _) as [h| |]; [right; by exists h | by left..].
Qed.

(** After the resolver has run, a route leaves the store as it was whenever
    it does not answer with a result, and whenever its handler inserts
    nothing. *)
Lemma app_store (req : request) (authorization : option string) (env : Env) (db : store) :
  is_signup req = false →
  ∀ o db1, app req authorization env db = (o, db1) →
    (is_ok o = false → db1 = db) ∧ (inserts_nothing req = true → db1 = db).
Proof.
  intros Hreq o db1.
  pose proof (get_current_user_readonly authorization (env_clock env 0) db) as Hro.
  pose proof (fun p => login_readonly p (env_clock env 0) db) as Hlogin.
  destruct req as [p|p| |p| |p| |p| |p|p| |p|]; [discriminate Hreq|..];
    unfold app, mbind at 1, M_bind;
    try (destruct (get_current_user authorization (env_clock env 0) db) as [[user| |] db0];
         cbn [snd] in Hro; subst db0;
         [|intros [= <- <-]; split; reflexivity..]).
  - specialize (Hlogin p).
    destruct (login p (env_clock env 0) db) as [[r| |] db2]; cbn [snd] in Hlogin;
      subst db2; intros [= <- <-]; split; reflexivity.
  - intros [= <- <-]; split; reflexivity.
  - unfold mbind at 1, M_bind, create_product.
    destruct (role_is user "vendor"); cbn [negb]; [|intros [= <- <-]; split; reflexivity].
    unfold mbind at 1, M_bind, create_document, mbind, M_bind, insert_one.
    intros [= <- <-]. split; discriminate.
  - unfold mbind at 1, M_bind, my_products.
    destruct (role_is user "vendor"); cbn [negb]; intros [= <- <-]; split; reflexivity.
  - unfold mbind at 1, M_bind, create_requirement.
    destruct (role_is user "buyer"); cbn [negb]; [|intros [= <- <-]; split; reflexivity].
    unfold mbind at 1, M_bind, create_document, mbind, M_bind, insert_one.
    intros [= <- <-]. split; discriminate.
  - unfold mbind at 1, M_bind, my_requirements.
    destruct (role_is user "buyer"); cbn [negb]; intros [= <- <-]; split; reflexivity.
  - unfold mbind at 1, M_bind, create_project.
    destruct (role_in user _); cbn [negb]; [|intros [= <- <-]; split; reflexivity].
    unfold mbind at 1, M_bind, create_document, mbind, M_bind, insert_one.
    intros [= <- <-]. split; discriminate.
  - intros [= <- <-]; split; reflexivity.
  - unfold mbind at 1, M_bind, invest.
    destruct (role_is user "investor"); cbn [negb]; [|intros [= <- <-]; split; reflexivity].
    unfold mbind at 1, M_bind, create_document, mbind, M_bind, insert_one.
    intros [= <- <-]. split; discriminate.
  - unfold mbind at 1, M_bind, create_job.
    destruct (role_in user _); cbn [negb]; [|intros [= <- <-]; split; reflexivity].
    unfold mbind at 1, M_bind, create_document, mbind, M_bind, insert_one.
    intros [= <- <-]. split; discriminate.
  - intros [= <- <-]; split; reflexivity.
  - unfold mbind at 1, M_bind, apply_job.
    destruct (role_in user _); cbn [negb]; [|intros [= <- <-]; split; reflexivity].
    unfold mbind at 1, M_bind, create_document, mbind, M_bind, insert_one.
    intros [= <- <-]. split; discriminate.
  - unfold mbind at 1, M_bind, admin_overview.
    destruct (role_is user "admin"); cbn [negb]; intros [= <- <-]; split; reflexivity.
Qed.
End store_effects.

Section store_invariants.
Context `{PyBuiltins} `{Passlib} `{PyJWT} `{OsEnviron}.

Ltac same := intros [= <- <-]; reflexivity.

Ltac into name :=
  unfold mbind at 1, M_bind, create_document, mbind, M_bind, insert_one;
  intros [= <- <-]; cbn [snd]; apply collection_insert_ne; discriminate.

(** A route other than [signup] leaves the user collection as it was. *)
Lemma app_users_other (req : request) (authorization : option string) (env : Env)
      (db : store) :
  is_signup req = false →
  collection (app req authorization env db).2 "user" = collection db "user".
Proof.
  intros Hreq.
  pose proof (get_current_user_readonly authorization (env_clock env 0) db) as Hro.
  pose proof (fun p => login_readonly p (env_clock env 0) db) as Hlogin.
  destruct (app req authorization env db) as [o db1] eqn:Happ. cbn [snd].
  revert Happ.
  destruct req as [p|p| |p| |p| |p| |p|p| |p|]; [discriminate Hreq|..];
    unfold app, mbind at 1, M_bind;
    try (destruct (get_current_user authorization (env_clock env 0) db) as [[user| |] db0];
         cbn [snd] in Hro; subst db0; [|same..]).
  - specialize (Hlogin p).
    destruct (login p (env_clock env 0) db) as [[r| |] db2]; cbn [snd] in Hlogin;
      subst db2; same.
  - same.
  - unfold mbind at 1, M_bind, create_product.
    destruct (role_is user "vendor"); cbn [negb]; [|same]. into "productlisting".
  - unfold mbind at 1, M_bind, my_products.
    destruct (role_is user "vendor"); cbn [negb]; same.
  - unfold mbind at 1, M_bind, create_requirement.
    destruct (role_is user "buyer"); cbn [negb]; [|same]. into "buyerrequirement".
  - unfold mbind at 1, M_bind, my_requirements.
    destruct (role_is user "buyer"); cbn [negb]; same.
  - unfold mbind at 1, M_bind, create_project.
    destruct (role_in user _); cbn [negb]; [|same]. into "investmentproject".
  - same.
  - unfold mbind at 1, M_bind, invest.
    destruct (role_is user "investor"); cbn [negb]; [|same]. into "transaction".
  - unfold mbind at 1, M_bind, create_job.
    destruct (role_in user _); cbn [negb]; [|same]. into "joblisting".
  - same.
  - unfold mbind at 1, M_bind, apply_job.
    destruct (role_in user _); cbn [negb]; [|same]. into "jobapplication".
  - unfold mbind at 1, M_bind, admin_overview.
    destruct (role_is user "admin"); cbn [negb]; same.
Qed.

(** What a request does to the user collection: nothing, or, for a signup
    under an email no user has, one record appended. *)
Lemma app_users_fresh (req : request) (authorization : option string) (env : Env)
      (db : store) :
  collection (app req authorization env db).2 "user" = collection db "user"
  ∨ ∃ payload h,
      user_by_email db (lower (SignupRequest.email payload)) = None
      ∧ hash_password (env_salt env) (SignupRequest.password payload) = Ok h
      ∧ collection (app req authorization env db).2 "user"
        = (collection db "user" ++ [stored_user payload env h])%list.
Proof.
  destruct (is_signup req) eqn:Hreq; [|left; by apply app_users_other].
  destruct req as [p| | | | | | | | | | | | |]; try discriminate Hreq.
  destruct (app (POST_auth_signup p) authorization env db) as [o db1] eqn:Happ.
  cbn [snd]. revert Happ. unfold app, mbind at 1, M_bind.
  pose proof (signup_store_fresh p env db) as Hs.
  destruct (signup p env db) as [[r| |] db2]; cbn [snd fst] in Hs; intros [= <- <-];
    (destruct Hs as [[-> _] | (h & Hu & Hh & ->)];
     [left; reflexivity
     |right; exists p, h; split; [exact Hu|]; split; [exact Hh|];
      unfold store_after_signup; apply collection_insert_eq]).
Qed.

(** X7.  No request makes two accounts share an email: if no two user
    records hold the same email before a request, none do after it. *)
Theorem emails_stay_unique (req : request) (authorization : option string) (env : Env)
        (db : store) :
  emails_unique db → emails_unique (app req authorization env db).2.
Proof.
  intros Huniq.
  destruct (app_users_fresh req authorization env db) as [Heq | (p & h & Hu & _ & Heq)];
    unfold emails_unique; rewrite Heq; [exact Huniq|].
  assert (Hnew : ∀ i d e,
    collection db "user" !! i = Some d → d !! "email" = Some (VStr e) →
    stored_user p env h !! "email" = Some (VStr e) → False).
  { intros i d e Hi He Hs.
    assert (Hst : stored_user p env h !! "email"
                  = Some (VStr (lower (SignupRequest.email p)))) by reflexivity.
    rewrite Hst in Hs. injection Hs as <-.
    apply (proj1 (user_by_email_None db _) Hu d); [|exact He].
    by eapply list_elem_of_lookup_2. }
  intros i j d1 d2 e Hi Hj H1' H2'.
  apply lookup_app_Some in Hi as [Hi | [Hli Hi]];
    apply lookup_app_Some in Hj as [Hj | [Hlj Hj]].
  - by eapply Huniq.
  - apply list_lookup_singleton_Some in Hj as [_ <-]. exfalso. by eapply Hnew.
  - apply list_lookup_singleton_Some in Hi as [_ <-]. exfalso. by eapply Hnew.
  - apply list_lookup_singleton_Some in Hi as [Hi _].
    apply list_lookup_singleton_Some in Hj as [Hj _]. lia.
Qed.

(** X8.  A request that is not answered with a result has written nothing:
    after a 400, 401 or 403, or an exception that escapes, the store is the
    one before the request.  The routes whose handler inserts nothing
    ([login], [me], the listings and the overview) leave the store as it
    was in every case. *)
Theorem failed_request_writes_nothing (req : request) (authorization : option string)
        (env : Env) (db : store) :
  (is_ok (app req authorization env db).1 = false → (app req authorization env db).2 = db)
  ∧ (inserts_nothing req = true → (app req authorization env db).2 = db).
Proof.
  destruct (is_signup req) eqn:Hreq.
  - destruct req as [p| | | | | | | | | | | | |]; try discriminate Hreq.
    split; [|discriminate].
    destruct (app (POST_auth_signup p) authorization env db) as [o db1] eqn:Happ.
    cbn [fst snd]. revert Happ. unfold app, mbind at 1, M_bind.
    rewrite signup_unfold. cbn zeta.
    destruct (user_by_email db _); [by intros [= <- <-]|].
    destruct (hash_password _ _); intros [= <- <-]; [discriminate | reflexivity..].
  - destruct (app req authorization env db) as [o db1] eqn:Happ.
    exact (app_store req authorization env db Hreq o db1 Happ).
Qed.

(** X9.  Authentication comes first: on a route that depends on the
    resolver, a failure of the resolver is the answer of the route, whatever
    the body and the role the route asks for, and nothing is written; with
    no header at all the answer is 401 "Missing Authorization header". *)
Theorem authentication_first (req : request) (authorization : option string)
        (env : Env) (db : store) :
  depends_on_current_user req = true →
  (∀ c d,
     (get_current_user authorization (env_clock env 0) db).1 = HTTPException c d →
     app req authorization env db = (HTTPException c d, db))
  ∧ app req None env db = (HTTPException 401 "Missing Authorization header", db).
Proof.
  intros Hreq. split.
  - intros c d Hg.
    pose proof (get_current_user_readonly authorization (env_clock env 0) db) as Hro.
    destruct req; try discriminate Hreq; unfold app, mbind at 1, M_bind;
      destruct (get_current_user authorization (env_clock env 0) db) as [o db0];
      cbn [fst snd] in Hg, Hro; subst o db0; reflexivity.
  - destruct req; try discriminate Hreq; reflexivity.
Qed.

(** X10.  User records are only ever appended: whatever the request, every
    record of the user collection is afterwards still there, at its place
    and unchanged, so no route alters a role, a digest or [is_active]. *)
Theorem user_records_append_only (req : request) (authorization : option string)
        (env : Env) (db : store) (i : nat) (d : dict) :
  collection db "user" !! i = Some d →
  collection (app req authorization env db).2 "user" !! i = Some d.
Proof.
  intros Hi.
  destruct (app_users_fresh req authorization env db) as [-> | (p & h & _ & _ & ->)];
    [exact Hi|]. by apply lookup_app_l_Some.
Qed.

(** X15.  In every store the routes reach from the empty store, each user
    record is one that [signup] wrote: the record of some signup request
    whose password the hasher turned into the digest it holds.  So every
    account has a lower-case string email, a string role, a digest and an
    id, and is active. *)
Theorem reachable_users_signed_up (db : store) (d : dict) :
  reachable db → d ∈ collection db "user" →
  ∃ payload env h,
    hash_password (env_salt env) (SignupRequest.password payload) = Ok h
    ∧ d = stored_user payload env h.
Proof.
  intros Hr. revert d. induction Hr as [|req authorization env db Hr IH]; intros d.
  - intros Hin. by apply elem_of_nil in Hin.
  - destruct (app_users_fresh req authorization env db) as [-> | (p & h & _ & Hh & ->)];
      [apply IH|].
    intros Hin. apply elem_of_app in Hin as [Hin | Hin]; [by apply IH|].
    apply list_elem_of_singleton in Hin. subst d. by exists p, env, h.
Qed.

(** What [login] can answer for an account that [signup] wrote. *)
Lemma login_signed_up (attempt : LoginRequest.t) (now : Z) (db : store)
      (payload : SignupRequest.t) (env : Env) (h : string) :
  user_by_email db (lower (LoginRequest.email attempt)) = Some (stored_user payload env h) →
  hash_password (env_salt env) (SignupRequest.password payload) = Ok h →
  (login attempt now db).1 ≠ HTTPException 403 "User deactivated"
  ∧ (login attempt now db).1 ≠ Uncaught UnknownHashError
  ∧ (login attempt now db).1 ≠ Uncaught TypeError.
Proof.
  intros Hu Hh. rewrite login_unfold. cbn zeta. rewrite Hu.
  change (dict_get_default (stored_user payload env h) "password_hash" (VStr EmptyString))
    with (VStr h).
  change (truthy (dict_get_default (stored_user payload env h) "is_active" (VBool true)))
    with true.
  unfold hash_password, pwd_context_hash in Hh.
  destruct (bcrypt_hash _ _) as [h'|] eqn:Hb; [|discriminate]. injection Hh as ->.
  unfold verify_password, pwd_context_verify.
  rewrite (bcrypt_hash_identify _ _ _ Hb).
  destruct (bcrypt_verify _ h) as [[]|]; cbn [fst]; [|repeat split; discriminate..].
  rewrite create_token_ok; [repeat split; discriminate| |].
  - unfold login_claims. apply map_Forall_insert_2; [reflexivity|].
    apply map_Forall_singleton. reflexivity.
  - apply session_claims_lookup. unfold login_claims.
    rewrite !lookup_insert_ne by discriminate.
    rewrite !lookup_singleton_ne by discriminate. auto.
Qed.

(** X16.  Through the routes alone no account is ever deactivated or left
    without a digest: in a store reached from the empty store, [login]
    never answers 403 "User deactivated", and neither [UnknownHashError]
    nor [TypeError] escapes from it. *)
Theorem reachable_login_outcomes (attempt : LoginRequest.t) (now : Z) (db : store) :
  reachable db →
  (login attempt now db).1 ≠ HTTPException 403 "User deactivated"
  ∧ (login attempt now db).1 ≠ Uncaught UnknownHashError
  ∧ (login attempt now db).1 ≠ Uncaught TypeError.
Proof.
  intros Hr.
  destruct (user_by_email db (lower (LoginRequest.email attempt))) as [u|] eqn:Hu.
  - pose proof (user_by_email_Some _ _ _ Hu) as [Hin _].
    assert (Hsigned : ∃ payload env h,
      hash_password (env_salt env) (SignupRequest.password payload) = Ok h
      ∧ u = stored_user payload env h).
    { clear Hu. revert u Hin.
      induction Hr as [|req authorization env db Hr IH]; intros u.
      - intros Hin. by apply elem_of_nil in Hin.
      - destruct (app_users_fresh req authorization env db)
          as [-> | (p & h & _ & Hh & ->)]; [apply IH|].
        intros Hin. apply elem_of_app in Hin as [Hin | Hin]; [by apply IH|].
        apply list_elem_of_singleton in Hin. subst u. by exists p, env, h. }
    destruct Hsigned as (payload & env & h & Hh & ->).
    by apply (login_signed_up attempt now db payload env h).
  - rewrite login_unfold. cbn zeta. rewrite Hu. repeat split; discriminate.
Qed.
End store_invariants.

(** ** Listings *)

Lemma doc_matches_empty (d : dict) : doc_matches ∅ d = true.
Proof. unfold doc_matches. rewrite map_to_list_empty. reflexivity. Qed.

Lemma filter_all {A} (f : A → bool) (l : list A) :
  (∀ a, f a = true) → List.filter f l = l.
Proof. intros Hf. induction l as [|a l IH]; simpl; [reflexivity|]. by rewrite Hf, IH. Qed.

Lemma find_by_owner (name k uid : string) (db : store) :
  find name {[ k := VStr uid ]} db
  = (Ok (List.filter (λ d, bool_decide (d !! k = Some (VStr uid))) (collection db name)), db).
Proof.
  unfold find. do 2 f_equal. apply List.filter_ext. intros d. apply doc_matches_singleton.
Qed.

Section listings.
Context `{PyBuiltins} `{Passlib} `{PyJWT} `{OsEnviron}.

Lemma stringify_id_other (d : dict) (k : string) :
  k ≠ "_id" → stringify_id d !! k = d !! k.
Proof. intros Hk. unfold stringify_id. apply lookup_insert_ne. congruence. Qed.

(** The documents of a collection owned by [uid] under the field [k], as the
    two "my" routes return them. *)
Lemma owned_documents (name k uid : string) (db : store) (d : dict) :
  d ∈ stringify_id <$>
        List.filter (λ d, bool_decide (d !! k = Some (VStr uid))) (collection db name)
  ↔ ∃ s, s ∈ collection db name ∧ s !! k = Some (VStr uid) ∧ d = stringify_id s.
Proof.
  rewrite list_elem_of_fmap. split.
  - intros (s & -> & Hin). apply list_elem_of_In, List.filter_In in Hin as [Hin Hb].
    exists s. split; [by apply list_elem_of_In|]. split; [|reflexivity].
    by apply bool_decide_eq_true in Hb.
  - intros (s & Hin & Hk & ->). exists s. split; [reflexivity|].
    apply list_elem_of_In, List.filter_In. split; [by apply list_elem_of_In|].
    by apply bool_decide_eq_true.
Qed.

(** X11.  Ownership is enforced by the query: for a caller whose id is a
    string, [my_products] returns exactly the stored product listings whose
    [vendor_id] is that id, and [my_requirements] exactly the requirements
    whose [buyer_id] is that id, each with its own [_id] turned into a
    string; nothing of another owner is returned and the store is not
    changed. *)
Theorem own_documents_only (user : dict) (uid : string) (db : store) :
  user !! "_id" = Some (VStr uid) →
  (role_is user "vendor" = true →
   ∃ docs, my_products user db = (Ok docs, db)
           ∧ (∀ d, d ∈ docs ↔
                   ∃ s, s ∈ collection db "productlisting"
                        ∧ s !! "vendor_id" = Some (VStr uid) ∧ d = stringify_id s)
           ∧ ∀ d, d ∈ docs → d !! "vendor_id" = Some (VStr uid))
  ∧ (role_is user "buyer" = true →
     ∃ docs, my_requirements user db = (Ok docs, db)
             ∧ (∀ d, d ∈ docs ↔
                     ∃ s, s ∈ collection db "buyerrequirement"
                          ∧ s !! "buyer_id" = Some (VStr uid) ∧ d = stringify_id s)
             ∧ ∀ d, d ∈ docs → d !! "buyer_id" = Some (VStr uid)).
Proof.
  intros Hid.
  assert (Hget : dict_get user "_id" = VStr uid) by (unfold dict_get; by rewrite Hid).
  split; intros Hrole.
  - unfold my_products. rewrite Hrole, Hget. cbn [negb].
    unfold mbind, M_bind, get_documents. rewrite find_by_owner.
    eexists. split; [reflexivity|]. split.
    + intros d. apply owned_documents.
    + intros d Hd. apply owned_documents in Hd as (s & _ & Hs & ->).
      by rewrite stringify_id_other.
  - unfold my_requirements. rewrite Hrole, Hget. cbn [negb].
    unfold mbind, M_bind, get_documents. rewrite find_by_owner.
    eexists. split; [reflexivity|]. split.
    + intros d. apply owned_documents.
    + intros d Hd. apply owned_documents in Hd as (s & _ & Hs & ->).
      by rewrite stringify_id_other.
Qed.

(** X12.  A listing that was created is listed: after a vendor whose id is
    a string has created a product, [my_products] returns what it returned
    before followed by one new document, which carries the title of the
    request, the vendor's id as [vendor_id] and the new id as a string. *)
Theorem create_then_list (payload : ProductPayload.t) (user : dict) (uid oid : string)
        (db : store) :
  user !! "_id" = Some (VStr uid) → role_is user "vendor" = true →
  ∃ resp db1 before new,
    create_product payload user oid db = (Ok resp, db1)
    ∧ my_products user db = (Ok before, db)
    ∧ my_products user db1 = (Ok (before ++ [new])%list, db1)
    ∧ new !! "title" = Some (VStr (ProductPayload.title payload))
    ∧ new !! "vendor_id" = Some (VStr uid)
    ∧ new !! "_id" = Some (VStr oid).
Proof.
  intros Hid Hrole.
  assert (Hget : dict_get user "_id" = VStr uid) by (unfold dict_get; by rewrite Hid).
  set (stored := bson_value <$> <["_id" := VObjectId oid]>
                   (<["vendor_id" := VStr uid]> (ProductPayload.dict payload))).
  set (own := λ d : dict, bool_decide (d !! "vendor_id" = Some (VStr uid))).
  exists {[ "id" := VObjectId oid; "message" := VStr "Product listed" ]},
         (<["productlisting" := (collection db "productlisting" ++ [stored])%list]> db),
         (stringify_id <$> List.filter own (collection db "productlisting")),
         (stringify_id stored).
  split; [|split; [|split]].
  - unfold create_product. rewrite Hrole, Hget. reflexivity.
  - unfold my_products. rewrite Hrole, Hget. cbn [negb].
    unfold mbind, M_bind, get_documents. rewrite find_by_owner. reflexivity.
  - unfold my_products. rewrite Hrole, Hget. cbn [negb].
    unfold mbind, M_bind, get_documents. rewrite find_by_owner.
    rewrite collection_insert_eq, List.filter_app, fmap_app.
    assert (Hown : List.filter own [stored] = [stored]).
    { cbn [List.filter]. unfold own. rewrite bool_decide_eq_true_2 by reflexivity.
      reflexivity. }
    change (λ d : dict, bool_decide (d !! "vendor_id" = Some (VStr uid))) with own.
    rewrite Hown. reflexivity.
  - repeat split; reflexivity.
Qed.

(** X13.  The two public listings are unfiltered and ignore the header:
    whatever is sent as [Authorization], a missing or a malformed header
    included, they return every document of the collection, in order, with
    its [_id] turned into a string, and leave the store as it was. *)
Theorem public_listings_unfiltered (authorization : option string) (env : Env)
        (db : store) :
  app GET_investor_projects authorization env db
  = (Ok (JsonArray (stringify_id <$> collection db "investmentproject")), db)
  ∧ app GET_job_listings authorization env db
    = (Ok (JsonArray (stringify_id <$> collection db "joblisting")), db).
Proof.
  split;
    unfold app, list_projects, list_jobs, mbind, M_bind, get_documents, find;
    cbn [mret M_ret]; rewrite (filter_all _ _ doc_matches_empty); reflexivity.
Qed.

(** X14.  Neither [invest] nor [apply_job] looks the referenced document
    up: for an investor, respectively an employee or admin, whose id is a
    string, the call succeeds in every store, whether or not a project or
    job with the given id exists, and appends one record that carries the
    given id, the caller's id and the initial status; the project and job
    collections are not touched. *)
Theorem references_are_not_checked (user : dict) (uid oid : string) (db : store) :
  user !! "_id" = Some (VStr uid) →
  (∀ payload, role_is user "investor" = true →
     ∃ resp db1 tx,
       invest payload user oid db = (Ok resp, db1)
       ∧ collection db1 "transaction" = (collection db "transaction" ++ [tx])%list
       ∧ tx !! "project_id" = Some (VStr (InvestPayload.project_id payload))
       ∧ tx !! "investor_id" = Some (VStr uid)
       ∧ tx !! "status" = Some (VStr "initiated")
       ∧ collection db1 "investmentproject" = collection db "investmentproject")
  ∧ (∀ payload, role_in user ["employee"; "admin"] = true →
       ∃ resp db1 a,
         apply_job payload user oid db = (Ok resp, db1)
         ∧ collection db1 "jobapplication" = (collection db "jobapplication" ++ [a])%list
         ∧ a !! "job_id" = Some (VStr (ApplyPayload.job_id payload))
         ∧ a !! "user_id" = Some (VStr uid)
         ∧ a !! "status" = Some (VStr "applied")
         ∧ collection db1 "joblisting" = collection db "joblisting").
Proof.
  intros Hid.
  assert (Hget : dict_get user "_id" = VStr uid) by (unfold dict_get; by rewrite Hid).
  split; intros payload Hrole.
  - unfold invest. rewrite Hrole, Hget. cbn [negb].
    unfold mbind, M_bind, create_document, mbind, M_bind, insert_one.
    cbn [mret M_ret fst snd]. do 3 eexists. split; [reflexivity|].
    rewrite collection_insert_eq, collection_insert_ne by discriminate.
    repeat split; reflexivity.
  - unfold apply_job. rewrite Hrole, Hget. cbn [negb].
    unfold mbind, M_bind, create_document, mbind, M_bind, insert_one.
    cbn [mret M_ret fst snd]. do 3 eexists. split; [reflexivity|].
    rewrite collection_insert_eq, collection_insert_ne by discriminate.
    repeat split; reflexivity.
Qed.
End listings.

(** ** Worked instances of the further properties *)

Lemma app_signup_alice : (app (POST_auth_signup alice) None alice_env ∅).2 = db_alice.
Proof. unfold app, mbind, M_bind. rewrite signup_alice. reflexivity. Qed.

Lemma app_signup_eve : (app (POST_auth_signup eve) None eve_env db_alice).2 = db_both.
Proof. unfold app, mbind, M_bind. rewrite signup_eve. reflexivity. Qed.

Lemma db_alice_reachable : reachable db_alice.
Proof. rewrite <- app_signup_alice. apply reachable_step, reachable_empty. Qed.

Lemma emails_unique_empty : emails_unique ∅.
Proof. intros i j d1 d2 e Hi. discriminate Hi. Qed.

(** A header under the Basic scheme is answered with one of the five. *)
Lemma resolver_failures_witness :
  (get_current_user (Some "Basic YWxpY2U6cHc=") t0 db_both).1
  = HTTPException 401 "Invalid auth header"
  ∧ "Invalid auth header" ∈ resolver_details
  ∧ (get_current_user (Some "Basic YWxpY2U6cHc=") t0 db_both).2 = db_both.
Proof.
  split; [reflexivity|].
  exact (proj2 (resolver_failures (Some "Basic YWxpY2U6cHc=") t0 db_both 401
                  "Invalid auth header" eq_refl)).
Defined.

Lemma scheme_case_insensitive_witness :
  lower "bEaReR" = "bearer"
  ∧ get_current_user (Some ("bEaReR " +:+ alice_token)) t0 db_both
    = get_current_user (Some ("Bearer " +:+ alice_token)) t0 db_both.
Proof.
  split; [reflexivity|].
  exact (scheme_case_insensitive "bEaReR" alice_token t0 db_both eq_refl).
Defined.

Lemma resolved_user_is_subject_witness :
  get_current_user (Some ("Bearer " +:+ eve_token)) t0 db_both
  = (Ok (sanitize (stored_user eve eve_env eve_digest)), db_both)
  ∧ ∃ scheme token claims stored,
      Some ("Bearer " +:+ eve_token) = Some (scheme +:+ " " +:+ token)
      ∧ lower scheme = "bearer"
      ∧ decode_token token t0 = Ok claims
      ∧ stored ∈ collection db_both "user"
      ∧ sanitize (stored_user eve eve_env eve_digest) = sanitize stored
      ∧ ∀ e, claims !! "sub" = Some (VStr e) →
             sanitize (stored_user eve eve_env eve_digest) !! "email" = Some (VStr e).
Proof.
  split; [exact resolve_eve|].
  exact (resolved_user_is_subject _ t0 db_both db_both _ resolve_eve).
Defined.

Lemma signup_claims_session (email role : string) :
  session_claims (signup_claims email role).
Proof.
  apply session_claims_lookup. unfold signup_claims.
  rewrite !lookup_insert_ne by discriminate.
  rewrite !lookup_singleton_ne by discriminate. auto.
Qed.

(** Alice's token is good at the instant of issue and expired an hour
    later. *)
Lemma token_lifetime_witness :
  create_token (signup_claims "alice@example.com" "admin") 60 t0 = Ok alice_token
  ∧ decode_token alice_token t0
    = Ok (issued_claims (signup_claims "alice@example.com" "admin") 60 t0)
  ∧ decode_token alice_token (t0 + 3600000000) = HTTPException 401 "Token expired".
Proof.
  split; [apply signup_claims_ok|]. split.
  - apply (proj1 (token_lifetime (signup_claims "alice@example.com" "admin") 60 t0 t0
                    alice_token (signup_claims_session _ _) (signup_claims_ok _ _ _ _))).
    exact t0_unexpired.
  - apply (proj1 (proj2 (token_lifetime (signup_claims "alice@example.com" "admin") 60 t0
                           (t0 + 3600000000) alice_token (signup_claims_session _ _)
                           (signup_claims_ok _ _ _ _)))).
    discriminate.
Defined.

Lemma login_then_resolve_witness :
  t0 < expiry 60 t0 * 1000000
  ∧ get_current_user
      (Some ("Bearer " +:+ issued_token (login_claims "alice@example.com"
                                           (stored_user alice alice_env alice_digest)) 60 t0))
      t0 db_both
    = (Ok (sanitize (stored_user alice alice_env alice_digest)), db_both).
Proof.
  split; [exact t0_unexpired|].
  exact (proj2 (login_then_resolve alice_login t0 t0 db_both db_both _
                  login_alice t0_unexpired)).
Defined.




Definition bob : SignupRequest.t :=
  {| SignupRequest.name := "Bob"; SignupRequest.email := "bob@example.com";
     SignupRequest.password := "hunter2"; SignupRequest.role := "buyer" |}.

Definition bob_env : Env := env_at "65a000000000000000000003".
Definition bob_digest : string := "$2b$hunter2$abcdefghijklmnopqrstuv".

Lemma app_signup_shouting :
  app (POST_auth_signup alice_shouting) None bob_env db_both
  = (HTTPException 400 "Email already registered", db_both).
Proof. unfold app, mbind, M_bind. rewrite signup_unfold. reflexivity. Qed.

Lemma app_signup_bob :
  (app (POST_auth_signup bob) None bob_env db_both).2
  = store_after_signup bob bob_env bob_digest db_both.
Proof. unfold app, mbind, M_bind. rewrite signup_unfold. reflexivity. Qed.

(** In the store of Alice and Eve, a signup under Alice's email in capitals
    is refused and a signup of Bob appends a third record; no two records
    share an email before or after either. *)
Lemma emails_stay_unique_witness :
  emails_unique db_both
  ∧ app (POST_auth_signup alice_shouting) None bob_env db_both
    = (HTTPException 400 "Email already registered", db_both)
  ∧ emails_unique (app (POST_auth_signup alice_shouting) None bob_env db_both).2
  ∧ collection (app (POST_auth_signup bob) None bob_env db_both).2 "user"
    = [stored_user alice alice_env alice_digest; stored_user eve eve_env eve_digest;
       stored_user bob bob_env bob_digest]
  ∧ emails_unique (app (POST_auth_signup bob) None bob_env db_both).2.
Proof.
  assert (Halice : emails_unique db_alice).
  { rewrite <- app_signup_alice.
    exact (emails_stay_unique (POST_auth_signup alice) None alice_env ∅
             emails_unique_empty). }
  assert (Hboth : emails_unique db_both).
  { rewrite <- app_signup_eve.
    exact (emails_stay_unique (POST_auth_signup eve) None eve_env db_alice Halice). }
  split; [exact Hboth|]. split; [exact app_signup_shouting|].
  split; [exact (emails_stay_unique (POST_auth_signup alice_shouting) None bob_env
                   db_both Hboth)|].
  split; [rewrite app_signup_bob; reflexivity|].
  exact (emails_stay_unique (POST_auth_signup bob) None bob_env db_both Hboth).
Defined.

(** A product listing is asked for under the Basic scheme. *)
Lemma authentication_first_witness :
  app (POST_vendor_products widget) (Some "Basic YWxpY2U6cHc=") alice_env db_both
  = (HTTPException 401 "Invalid auth header", db_both)
  ∧ app GET_admin_overview None alice_env db_both
    = (HTTPException 401 "Missing Authorization header", db_both).
Proof.
  split.
  - exact (proj1 (authentication_first (POST_vendor_products widget)
                    (Some "Basic YWxpY2U6cHc=") alice_env db_both eq_refl)
             401 "Invalid auth header" eq_refl).
  - exact (proj2 (authentication_first GET_admin_overview None alice_env db_both eq_refl)).
Defined.

(** Alice's record is where it was after Eve has signed up. *)
Lemma user_records_append_only_witness :
  collection db_alice "user" !! 0%nat = Some (stored_user alice alice_env alice_digest)
  ∧ collection (app (POST_auth_signup eve) None eve_env db_alice).2 "user" !! 0%nat
    = Some (stored_user alice alice_env alice_digest).
Proof.
  split; [reflexivity|].
  exact (user_records_append_only (POST_auth_signup eve) None eve_env db_alice 0
           (stored_user alice alice_env alice_digest) eq_refl).
Defined.

(** A resolved vendor, and a store with a listing of that vendor and one of
    another. *)
Definition victor : dict :=
  {[ "_id" := VStr "65b000000000000000000001"; "role" := VStr "vendor";
     "email" := VStr "victor@example.com" ]}.

Definition db_products : store :=
  {[ "productlisting" :=
       [ {[ "_id" := VObjectId "65c000000000000000000001"; "title" := VStr "Bolt";
            "vendor_id" := VStr "65b000000000000000000001" ]};
         {[ "_id" := VObjectId "65c000000000000000000002"; "title" := VStr "Nut";
            "vendor_id" := VStr "65b000000000000000000002" ]} ] ]}.

Lemma own_documents_only_witness :
  victor !! "_id" = Some (VStr "65b000000000000000000001")
  ∧ role_is victor "vendor" = true
  ∧ ∃ docs, my_products victor db_products = (Ok docs, db_products)
            ∧ ∀ d, d ∈ docs → d !! "vendor_id" = Some (VStr "65b000000000000000000001").
Proof.
  split; [reflexivity|]. split; [reflexivity|].
  destruct (proj1 (own_documents_only victor "65b000000000000000000001" db_products eq_refl)
              eq_refl) as (docs & Hm & _ & Hown).
  exists docs. split; assumption.
Defined.

Lemma create_then_list_witness :
  ∃ resp db1 before new,
    create_product widget victor "65c000000000000000000003" db_products = (Ok resp, db1)
    ∧ my_products victor db_products = (Ok before, db_products)
    ∧ my_products victor db1 = (Ok (before ++ [new])%list, db1)
    ∧ new !! "title" = Some (VStr "Widget")
    ∧ new !! "vendor_id" = Some (VStr "65b000000000000000000001")
    ∧ new !! "_id" = Some (VStr "65c000000000000000000003").
Proof.
  exact (create_then_list widget victor "65b000000000000000000001"
           "65c000000000000000000003" db_products eq_refl eq_refl).
Defined.

Definition ivy : dict :=
  {[ "_id" := VStr "65b000000000000000000003"; "role" := VStr "investor" ]}.

Definition stake : InvestPayload.t :=
  {| InvestPayload.project_id := "no-such-project"; InvestPayload.amount := 0 |}.

(** An investment in a project that does not exist is recorded. *)
Lemma references_are_not_checked_witness :
  collection db_products "investmentproject" = []
  ∧ ∃ resp db1 tx,
      invest stake ivy "65d000000000000000000001" db_products = (Ok resp, db1)
      ∧ collection db1 "transaction" = [tx]
      ∧ tx !! "project_id" = Some (VStr "no-such-project").
Proof.
  split; [reflexivity|].
  destruct (proj1 (references_are_not_checked ivy "65b000000000000000000003"
                     "65d000000000000000000001" db_products eq_refl) stake eq_refl)
    as (resp & db1 & tx & Hi & Hc & Hp & _).
  exists resp, db1, tx. repeat split; assumption.
Defined.

Lemma reachable_users_signed_up_witness :
  reachable db_alice
  ∧ stored_user alice alice_env alice_digest ∈ collection db_alice "user"
  ∧ ∃ payload env h,
      hash_password (env_salt env) (SignupRequest.password payload) = Ok h
      ∧ stored_user alice alice_env alice_digest = stored_user payload env h.
Proof.
  split; [exact db_alice_reachable|]. split; [apply list_elem_of_here|].
  exact (reachable_users_signed_up db_alice _ db_alice_reachable (list_elem_of_here _ _)).
Defined.

Lemma reachable_login_outcomes_witness :
  reachable db_alice
  ∧ (login alice_wrong t0 db_alice).1 ≠ HTTPException 403 "User deactivated"
  ∧ (login alice_wrong t0 db_alice).1 ≠ Uncaught UnknownHashError
  ∧ (login alice_wrong t0 db_alice).1 ≠ Uncaught TypeError.
Proof.
  split; [exact db_alice_reachable|].
  exact (reachable_login_outcomes alice_wrong t0 db_alice db_alice_reachable).
Defined.
